(** * Circular aperture photometry on HEALPix maps ([haperflux.py])

    A shallow embedding of the four functions of the module, [planckcorr],
    [convertToJy], [healpix_phot] and [haperflux], and the properties of
    them that the specification states.

    Reading of the source.
    - The module is Python 2 ([print] statements, [/] on integers is floor
      division, [exit] is the [site] builtin that raises [SystemExit]).
    - Two runs of statements are indented one level deeper than the
      statement before them (lines 149-178 of [convertToJy] and lines
      357-383 of [haperflux]).  They are read as the continuation of the
      function body they stand in, which is the only block they can belong
      to.
    - Floating-point values are IEEE binary64, as [PrimFloat] has them.
    - What the module takes from the interpreter and from numpy, healpy and
      astropy (power, exponential, rounding, reductions over arrays, disc
      queries, file readers) and from the process ([sys.argv]) is the
      interface [Host]: the functions below are defined for every host.
    - A computation is a pair of the lines it printed and either the value
      it returned or the exception it raised. *)

From Stdlib Require Import Floats ZArith List String Bool Lia.
From Stdlib Require Import DecimalString.
From stdpp Require Import base list.
Import ListNotations.

Set Warnings "-inexact-float".

#[local] Open Scope string_scope.
#[local] Open Scope list_scope.

(* ===================================================================== *)
(** ** Exceptions, printed output and the computation monad               *)
(* ===================================================================== *)

(** The exceptions the module can end with. *)
Inductive exn : Type :=
  | NameError (name : string)          (* a global name that is not bound *)
  | UnboundLocalError (name : string)  (* a local read before assignment  *)
  | TypeError
  | ZeroDivisionError
  | OverflowError
  | ValueError
  | IndexError
  | KeyError (key : string)
  | SystemExit                         (* raised by [exit()]               *)
  | IOError (what : string).           (* a reader of the host failed      *)

Inductive result (A : Type) : Type :=
  | Ret (a : A)
  | Raise (e : exn).
Arguments Ret {A} a.
Arguments Raise {A} e.

(** Printed lines, then how the computation ended. *)
Definition M (A : Type) : Type := (list string * result A)%type.

Definition ret {A} (a : A) : M A := ([], Ret a).
Definition raise {A} (e : exn) : M A := ([], Raise e).
Definition print (line : string) : M unit := ([line], Ret tt).

Definition bind {A B} (m : M A) (f : A -> M B) : M B :=
  match m with
  | (out, Ret a) => let (out', r) := f a in (out ++ out', r)
  | (out, Raise e) => (out, Raise e)
  end.

Notation "x <- m ;; k" := (bind m (fun x => k))
  (at level 100, m at level 99, right associativity).
Notation "m ;;; k" := (bind m (fun _ => k))
  (at level 100, right associativity).

Definition output {A} (m : M A) : list string := fst m.
Definition outcome {A} (m : M A) : result A := snd m.

Definition returns {A} (m : M A) : bool :=
  match outcome m with Ret _ => true | Raise _ => false end.

(** The value a computation returned, [d] when it raised. *)
Definition value_or {A} (d : A) (m : M A) : A :=
  match outcome m with Ret a => a | Raise _ => d end.

(** [exit()]. *)
Definition py_exit {A} : M A := raise SystemExit.

(** [for x in xs: s = body(s, x)], stopping at the first exception. *)
Fixpoint for_each {S X} (body : S -> X -> M S) (xs : list X) (s : S) : M S :=
  match xs with
  | [] => ret s
  | x :: xs' => s' <- body s x ;; for_each body xs' s'
  end.

(** [range(0, n)]. *)
Definition py_range (n : nat) : list nat := seq 0 n.

(* ===================================================================== *)
(** ** Numbers                                                            *)
(* ===================================================================== *)

(** [np.pi] and [hp.UNSEEN]. *)
Definition np_pi : float := 3.141592653589793%float.
Definition UNSEEN : float := (-1.6375e30)%float.

Definition np_isfinite (x : float) : bool :=
  match classify x with
  | NaN | PInf | NInf => false
  | _ => true
  end.

(** [x != y] on floats: true also when one of them is NaN. *)
Definition float_ne (x y : float) : bool := negb (PrimFloat.eqb x y).

(** The float nearest to [m * 2^e] (ties to even). *)
Definition float_of_dyadic (m e : Z) : float :=
  SF2Prim (binary_normalize prec emax m e false).

(** [float(n)] of an integer. *)
Definition float_of_Z (z : Z) : float := float_of_dyadic z 0.

Definition float_of_nat (n : nat) : float := float_of_Z (Z.of_nat n).

(** [x / y] on two Python floats: a zero divisor raises. *)
Definition py_div (x y : float) : M float :=
  if PrimFloat.eqb y 0%float then raise ZeroDivisionError
  else ret (x / y)%float.

(** [float(x)] where [x] may be [None]. *)
Definition py_float (x : option float) : M float :=
  match x with
  | Some v => ret v
  | None => raise TypeError
  end.

(** A number handed to [convertToJy] as [npix]: a Python int or float, or
    a numpy float64 scalar (what [haperflux] computes as [12*nside**2]). *)
Inductive number : Type :=
  | PyNumber (x : float)
  | NpFloat64 (x : float).

(** [x / n] for a Python float [x]: Python's own division raises on a zero
    divisor, the division of numpy scalars returns an infinity or NaN. *)
Definition div_by (x : float) (n : number) : M float :=
  match n with
  | PyNumber y => py_div x y
  | NpFloat64 y => ret (x / y)%float
  end.

(** [len(a)] of the array [np.genfromtxt] makes of the rows of a file
    (a field of the catalogue, or the list of maps with one name on each
    line): the number of rows, except that a file of a single row comes
    back as a 0-d array, of which [len()] raises [TypeError]. *)
Definition len_genfromtxt {A} (rows : list A) : M nat :=
  match rows with
  | [_] => raise TypeError
  | _ => ret (length rows)
  end.

(** [math.sqrt]: a negative argument is a domain error. *)
Definition math_sqrt (x : float) : M float :=
  if PrimFloat.ltb x 0%float then raise ValueError
  else ret (PrimFloat.sqrt x).

(** [str(n)] of an integer. *)
Definition py_str_int (z : Z) : string := NilZero.string_of_int (Z.to_int z).

(* ===================================================================== *)
(** ** Arrays                                                             *)
(* ===================================================================== *)

(** [a[idx]] with an array of indices: every index must be in range. *)
Fixpoint np_take {A} (a : list A) (idx : list nat) : M (list A) :=
  match idx with
  | [] => ret []
  | i :: idx' =>
      match a !! i with
      | Some v => vs <- np_take a idx' ;; ret (v :: vs)
      | None => raise IndexError
      end
  end.

(** [np.where(mask)]: the positions at which the mask holds. *)
Fixpoint np_where_from (pos : nat) (mask : list bool) : list nat :=
  match mask with
  | [] => []
  | b :: mask' =>
      if b then pos :: np_where_from (S pos) mask'
      else np_where_from (S pos) mask'
  end.
Definition np_where (mask : list bool) : list nat := np_where_from 0 mask.

(** [np.delete(arr, obj)] with an array [obj]: the elements of [arr] whose
    POSITION is not one of the numbers in [obj].  The numpy releases that
    run under Python 2 ignore a number of [obj] that is not a position of
    [arr] (with a DeprecationWarning). *)
Fixpoint np_delete_from {A} (pos : nat) (arr : list A) (obj : list nat) : list A :=
  match arr with
  | [] => []
  | x :: arr' =>
      if existsb (Nat.eqb pos) obj then np_delete_from (S pos) arr' obj
      else x :: np_delete_from (S pos) arr' obj
  end.
Definition np_delete {A} (arr : list A) (obj : list nat) : list A :=
  np_delete_from 0 arr obj.

(* ===================================================================== *)
(** ** What the module takes from its host                                *)
(* ===================================================================== *)

(** A unit vector. *)
Definition vec : Type := (float * float * float)%type.

(** The [inmap] argument of [haperflux]: a file name or an array of
    dtype float64 (what [hp.read_map] returns by default). *)
Inductive pymap : Type :=
  | MapFile (path : string)
  | MapArray (data : list float).

(** [np.size]. *)
Definition np_size (m : pymap) : nat :=
  match m with
  | MapFile _ => 1
  | MapArray d => length d
  end.

(** A map read with its header; the [FREQ] card holds an integer. *)
Record map_file : Type := {
  map_data : list float;
  card_FREQ : option Z;
  card_TUNIT1 : option string
}.

(** A row of the target catalogue. *)
Record target : Type := {
  sname : string;
  glon : float;
  glat : float
}.

Class Host : Type := {
  (** the process *)
  sys_argv : list string;
  (** the interpreter: [x ** y] on Python floats (may raise), [round] *)
  py_pow : float -> float -> M float;
  py_round : float -> Z -> float;
  (** numpy scalars and reductions *)
  np_power : float -> float -> float;
  np_exp : float -> float;
  np_remainder : float -> float -> float;
  np_sum : list float -> float;
  np_median : list float -> float;
  np_std : list float -> float;
  (** astropy.stats *)
  mad_std : list float -> float;
  (** healpy *)
  hp_ang2vec : float -> float -> vec;
  hp_query_disc : float -> vec -> float -> bool -> list nat;
  hp_read_map : pymap -> bool -> M (list float);
  hp_read_map_h : string -> M map_file;
  (** the rows np.genfromtxt parses from the catalogue and from the list
      of maps *)
  genfromtxt_targets : string -> M (list target);
  genfromtxt_str : string -> M (list string)
}.

(** The names bound at module level: the imports and the four functions. *)
Definition module_globals : list string :=
  [ "matplotlib"; "np"; "plt"; "hp"; "pro"; "fits"; "sys"; "math";
    "mad_std"; "u"; "SkyCoord";
    "planckcorr"; "convertToJy"; "healpix_phot"; "haperflux" ].

(** Reading a global name: its value when the module binds the name. *)
Definition load_global {A} (name : string) (v : A) : M A :=
  if existsb (String.eqb name) module_globals then ret v
  else raise (NameError name).

(* ===================================================================== *)
(** ** planckcorr and convertToJy                                         *)
(* ===================================================================== *)

Section Conversion.
Context `{Host}.
#[local] Open Scope float_scope.

Definition planckcorr (freq : float) : M float :=
  let h := 6.62606957E-34 in
  let k := 1.3806488E-23 in
  let T := 2.725 in
  let x := h * (freq * 1e9) / k / T in
  let num := np_power (np_exp x - 1) 2 in
  x2 <- py_pow x 2 ;;
  ret (num / x2 / np_exp x).

(** The expression the six Kelvin branches start with:
    [2.*1381.*(thisfreq*1.0e9)**2/(2.997e8)**2 * pix_area]. *)
Definition kelvin_rj (thisfreq pix_area : float) : M float :=
  p <- py_pow (thisfreq * 1.0e9) 2 ;;
  q <- py_pow 2.997e8 2 ;;
  ret (2.0 * 1381.0 * p / q * pix_area).

Definition unit_in (units : string) (labels : list string) : bool :=
  existsb (String.eqb units) labels.

(** Lines 144-145: [pix_area], or [4.*np.pi / npix] without one. *)
Definition resolve_pix_area (npix : option number) (pix_area : option float)
    : M float :=
  match pix_area with
  | None =>
      match npix with
      | Some n => div_by (4.0 * np_pi) n
      | None => raise TypeError
      end
  | Some a => ret a
  end.

Definition convertToJy (units : string) (thisfreq : float)
    (npix : option number) (pix_area : option float) : M float :=
  (match pix_area, npix with
   | Some _, Some _ =>
       print "Only one of npix or pix_area should be specified! Proceeding with npix."
   | _, _ => ret tt
   end) ;;;
  pix_area <- resolve_pix_area npix pix_area ;;
  let factor := 1.0 in
  if unit_in units ["K"; "K_RJ"; "KRJ"] then
    kelvin_rj thisfreq pix_area
  else if unit_in units ["mK"; "mK_RJ"; "mKRJ"] then
    k <- kelvin_rj thisfreq pix_area ;; ret (k / 1.0e3)
  else if unit_in units ["uK"; "uK_RJ"; "uKRJ"] then
    k <- kelvin_rj thisfreq pix_area ;; ret (k / 1.0e6)
  else if unit_in units ["K_CMB"; "KCMB"] then
    k <- kelvin_rj thisfreq pix_area ;;
    c <- planckcorr thisfreq ;; ret (k / c)
  else if unit_in units ["mK_CMB"; "mKCMB"] then
    k <- kelvin_rj thisfreq pix_area ;;
    c <- planckcorr thisfreq ;; ret (k / 1.0e3 / c)
  else if unit_in units ["uK_CMB"; "uKCMB"] then
    k <- kelvin_rj thisfreq pix_area ;;
    c <- planckcorr thisfreq ;; ret (k / 1.0e6 / c)
  else if unit_in units ["MJy/sr"; "MJY/SR"; "MjySr"] then
    ret (pix_area * 1.0e6)
  else if unit_in units ["Jy/pixel"; "JY/PIXEL"; "JY/PIX"; "JyPix"] then
    ret 1.0
  else if unit_in units ["average"; "avg"; "Average"; "AVG"] then
    ninnerpix <- load_global "ninnerpix" 0 ;;
    ret (1.0 / ninnerpix)
  else
    print "Invalid units specified! " ;;;
    ret factor.

End Conversion.

(* ===================================================================== *)
(** ** haperflux                                                          *)
(* ===================================================================== *)

(** The arguments of [haperflux] that it reads.  [res_arcmin] and
    [aper_inner_radius] may be [None]: [healpix_phot] passes its own
    [radius] for both. *)
Record haperflux_args : Type := {
  inmap : pymap;
  freq : float;
  lon : float;
  lat : float;
  res_arcmin : option float;
  aper_inner_radius : option float;
  aper_outer_radius1 : float;
  aper_outer_radius2 : float;
  units : string;
  fd_err : float;       (* default 0 *)
  nested : bool;        (* default False *)
  noise_model : Z;      (* default 0 *)
  arcmin : bool         (* default True *)
}.

(** What lines 260-353 leave in the local variables. *)
Record apertures : Type := {
  thisfreq : float;
  hmap : list float;
  npix : float;
  innerpix : list nat;
  ninnerpix : nat;
  outerpix1 : list nat;
  outerpix2 : list nat;
  bgpix : list nat;
  nbgpix : nat
}.

Definition usage_line : string :=
  "haperflux(inmap, freq, res_arcmin, lon, lat, aper_inner_radius, aper_outer_radius1, aper_outer_radius2, units, fd, fd_err, fd_bg,column, noise_model, /dopol, /nested)".

Section Photometry.
Context `{Host}.
#[local] Open Scope float_scope.

(** [pix_masked = np.delete(pix, np.where(hmap[pix] == hp.UNSEEN))], on a
    map of dtype float64, where [==] compares binary64 values.  (On a
    float32 map numpy compares in float32, and also drops the pixels that
    hold [hp.UNSEEN] rounded to float32.) *)
Definition remove_unseen (hmap : list float) (pix : list nat) : M (list nat) :=
  vals <- np_take hmap pix ;;
  let bad := np_where (map (fun v => PrimFloat.eqb v UNSEEN) vals) in
  ret (np_delete pix bad).

(** Lines 260-353: the parameters, the map, the three discs, the annulus. *)
Definition haperflux_apertures (a : haperflux_args) : M apertures :=
  let thisfreq := freq a in
  let lon := lon a in
  let lat := lat a in
  aper_inner_radius <- py_float (aper_inner_radius a) ;;
  let aper_outer_radius1 := aper_outer_radius1 a in
  let aper_outer_radius2 := aper_outer_radius2 a in
  let to_rad r := if arcmin a then r / 60.0 * np_pi / 180.0 else r in
  let aper_inner_radius := to_rad aper_inner_radius in
  let aper_outer_radius1 := to_rad aper_outer_radius1 in
  let aper_outer_radius2 := to_rad aper_outer_radius2 in
  let s := np_size (inmap a) in
  read <- (if (s =? 1)%nat then
             print "Filename given as input..." ;;;
             print "Reading HEALPix fits file into a numpy array" ;;;
             m <- hp_read_map (inmap a) (nested a) ;; ret (Some m)
           else ret None) ;;
  hmap <- (if (1 <? s)%nat then
             match inmap a with
             | MapArray d => ret d
             | MapFile _ => raise TypeError
             end
           else match read with
                | Some m => ret m
                | None => raise (UnboundLocalError "hmap")
                end) ;;
  let nside := PrimFloat.sqrt (float_of_Z (Z.of_nat (length hmap) / 12)) in
  (if float_ne (py_round nside 1) nside || float_ne (np_remainder nside 2) 0
   then print "" ;;; print "Not a standard Healpix map..." ;;; print "" ;;;
        py_exit
   else ret tt) ;;;
  let npix := 12 * np_power nside 2 in
  let phi := lon * np_pi / 180.0 in
  let theta := np_pi / 2.0 - lat * np_pi / 180.0 in
  let vec0 := hp_ang2vec theta phi in
  let innerpix := hp_query_disc nside vec0 aper_inner_radius (nested a) in
  let outerpix1 := hp_query_disc nside vec0 aper_outer_radius1 (nested a) in
  let outerpix2 := hp_query_disc nside vec0 aper_outer_radius2 (nested a) in
  innerpix_masked <- remove_unseen hmap innerpix ;;
  let ninnerpix := length innerpix_masked in
  outerpix1_masked <- remove_unseen hmap outerpix1 ;;
  let nouterpix1 := length outerpix1_masked in
  outerpix2_masked <- remove_unseen hmap outerpix2 ;;
  let nouterpix2 := length outerpix2_masked in
  (if (ninnerpix =? 0)%nat || (nouterpix1 =? 0)%nat || (nouterpix2 =? 0)%nat
   then print "" ;;; print "***No good pixels inside aperture!***" ;;;
        print "" ;;;
        (* fd = np.nan; fd_err = np.nan *)
        py_exit
   else ret tt) ;;;
  let innerpix := innerpix_masked in
  let outerpix1 := outerpix1_masked in
  let outerpix2 := outerpix2_masked in
  let bgpix := np_delete outerpix2 outerpix1 in
  let nbgpix := length bgpix in
  ret {| thisfreq := thisfreq; hmap := hmap; npix := npix;
         innerpix := innerpix; ninnerpix := ninnerpix;
         outerpix1 := outerpix1; outerpix2 := outerpix2;
         bgpix := bgpix; nbgpix := nbgpix |}.

(** Noise model 0, lines 373-375. *)
Definition noise_model_0 (a : haperflux_args) (ap : apertures) (factor : float)
    : M float :=
  pix_area <- load_global "pix_area" 0 ;;
  r <- py_float (res_arcmin a) ;;
  d <- py_pow (r / 60.0 * np_pi / 180.0) 2 ;;
  let Npoints := (pix_area * float_of_nat (ninnerpix ap)) / (1.13 * d) in
  d' <- py_pow (r / 60.0 * np_pi / 180.0) 2 ;;
  let Npoints_outer := (pix_area * float_of_nat (nbgpix ap)) / (1.13 * d') in
  vals <- np_take (hmap ap) (bgpix ap) ;;
  root <- math_sqrt Npoints ;;
  ret (np_std vals * factor * float_of_nat (ninnerpix ap) / root).

(** Noise model 1, lines 381-383. *)
Definition noise_model_1 (ap : apertures) (factor : float) : M float :=
  let k := np_pi / 2.0 in
  sq <- py_pow (float_of_nat (ninnerpix ap)) 2 ;;
  ratio <- py_div (k * sq) (float_of_nat (nbgpix ap)) ;;
  root <- math_sqrt (float_of_nat (ninnerpix ap) + ratio) ;;
  vals <- np_take (hmap ap) (bgpix ap) ;;
  ret (factor * root * mad_std vals).

(** Lines 357-389: the flux, the background and the error. *)
Definition haperflux_flux (a : haperflux_args) (ap : apertures) (factor : float)
    : M (float * float * float) :=
  inner_vals <- np_take (hmap ap) (innerpix ap) ;;
  let fd_jypix_inner := map (fun v => v * factor) inner_vals in
  let fd_jy_inner := np_sum fd_jypix_inner in
  bg_vals <- np_take (hmap ap) (bgpix ap) ;;
  let fd_jy_outer := np_median bg_vals * factor in
  let fd_bg := fd_jy_outer in
  let fd_bg_scaled := fd_bg * float_of_nat (ninnerpix ap) in
  let fd := fd_jy_inner - fd_bg_scaled in
  fd_err <- (if (noise_model a =? 0)%Z then noise_model_0 a ap factor
             else ret (fd_err a)) ;;
  fd_err <- (if (noise_model a =? 1)%Z then noise_model_1 ap factor
             else ret fd_err) ;;
  ret (fd, fd_err, fd_bg_scaled).

Definition haperflux (a : haperflux_args) : M (float * float * float) :=
  (if (8 <? length sys_argv)%nat
   then print "" ;;; print "SYNTAX:-" ;;; print "" ;;;
        print usage_line ;;; print "" ;;;
        py_exit
   else ret tt) ;;;
  ap <- haperflux_apertures a ;;
  covnertToJy <- load_global "covnertToJy" convertToJy ;;
  factor <- covnertToJy (units a) (thisfreq ap)
              (Some (NpFloat64 (npix ap))) None ;;
  haperflux_flux a ap factor.

End Photometry.

(* ===================================================================== *)
(** ** healpix_phot                                                       *)
(* ===================================================================== *)

Definition freqlist : list string :=
  [ "30"; "44"; "70"; "100"; "143"; "217"; "353"; "545"; "857"; "1874";
    "2141"; "2998"; "3331"; "4612"; "4997"; "11992"; "16655"; "24983";
    "33310" ].

Definition fwhmlist : list float :=
  [ 33.1587; 28.0852; 13.0812; 9.88; 7.18; 4.87; 4.65; 4.72; 4.39; 0.86;
    0.86; 4.3; 0.86; 0.86; 4; 3.8; 0.86; 3.8; 0.86 ]%float.

(** [l.index(x)]: the first position of [x], a [ValueError] without one. *)
Fixpoint list_index_from (pos : nat) (x : string) (l : list string) : M nat :=
  match l with
  | [] => raise ValueError
  | y :: l' => if String.eqb y x then ret pos else list_index_from (S pos) x l'
  end.
Definition list_index (x : string) (l : list string) : M nat :=
  list_index_from 0 x l.

(** [l[i]] with an index in range. *)
Definition py_getitem {A} (l : list A) (i : nat) : M A :=
  match l !! i with
  | Some v => ret v
  | None => raise IndexError
  end.

(** [d[key]] on the header cards. *)
Definition py_card {A} (key : string) (card : option A) : M A :=
  match card with
  | Some v => ret v
  | None => raise (KeyError key)
  end.

(** A table of [ns] rows (targets) and [nmaps] columns (maps). *)
Abbreviation table := (list (list float)).

(** [np.zeros((ns, nmaps))]. *)
Definition np_zeros (ns nmaps : nat) : table :=
  replicate ns (replicate nmaps 0%float).

(** [t[ct, ct2]] and [t[ct, ct2] = v], both with indices in range. *)
Definition cell (t : table) (ct ct2 : nat) : option float :=
  match t !! ct with
  | Some row => row !! ct2
  | None => None
  end.
Definition set_cell (t : table) (ct ct2 : nat) (v : float) : table :=
  alter (fun row => <[ct2 := v]> row) ct t.

(** The three result tables [fd_all], [fd_err_all], [fd_bg_all]. *)
Record tables : Type := {
  fd_all : table;
  fd_err_all : table;
  fd_bg_all : table
}.

(** What the loop over the maps holds of the map it is at. *)
Record loaded_map : Type := {
  xtmp_data : list float;
  map_units : string;
  idx : nat;
  currfreq : Z
}.

Definition shape (t : table) (ns nmaps : nat) : Prop :=
  length t = ns /\ Forall (fun row => length row = nmaps) t.

Section Batch.
Context `{Host}.
#[local] Open Scope float_scope.

(** Lines 188-191. *)
Definition aperture_correction (radius : option float) (rinner router : float)
    : M float :=
  let k0 := 1.0 in
  radius <- py_float radius ;;
  k1 <- py_div rinner radius ;;
  k2 <- py_div router radius ;;
  k0sq <- py_pow k0 2 ;;
  a0 <- py_pow 0.5 (4 * k0sq) ;;
  k1sq <- py_pow k1 2 ;;
  a1 <- py_pow 0.5 (4 * k1sq) ;;
  k2sq <- py_pow k2 2 ;;
  a2 <- py_pow 0.5 (4 * k2sq) ;;
  py_pow ((1 - a0) - (a1 - a2)) (-1).

(** The call of lines 230-233, for the map [m] and the target [tg].
    [radius] is passed for [res_arcmin] and for [aper_inner_radius]; the
    other arguments keep their defaults. *)
Definition cell_args (radius : option float) (rinner router : float)
    (m : loaded_map) (tg : target) : haperflux_args :=
  {| inmap := MapArray (xtmp_data m); freq := float_of_Z (currfreq m);
     lon := glon tg; lat := glat tg;
     res_arcmin := radius; aper_inner_radius := radius;
     aper_outer_radius1 := rinner; aper_outer_radius2 := router;
     units := map_units m;
     fd_err := 0; nested := false; noise_model := 0; arcmin := true |}.

(** Lines 230 and 235-241: the three results are stored at [ct, ct2]; a
    non-finite error replaces flux and error by -1; otherwise, without a
    [radius], flux and error are scaled by [apcor].  (The source reads the
    error and the flux back from the cell it has just written.) *)
Definition store_cell (radius : option float) (apcor : float) (ct ct2 : nat)
    (r : float * float * float) (t : tables) : tables :=
  let '(fd, fd_err, fd_bg) := r in
  let t := {| fd_all := set_cell (fd_all t) ct ct2 fd;
              fd_err_all := set_cell (fd_err_all t) ct ct2 fd_err;
              fd_bg_all := set_cell (fd_bg_all t) ct ct2 fd_bg |} in
  if negb (np_isfinite fd_err) then
    {| fd_all := set_cell (fd_all t) ct ct2 (-1);
       fd_err_all := set_cell (fd_err_all t) ct ct2 (-1);
       fd_bg_all := fd_bg_all t |}
  else
    match radius with
    | None =>
        {| fd_all := set_cell (fd_all t) ct ct2 (fd * apcor);
           fd_err_all := set_cell (fd_err_all t) ct ct2 (fd_err * apcor);
           fd_bg_all := fd_bg_all t |}
    | Some _ => t
    end.

(** Lines 212-217: the map, its units, its frequency and the position of
    the frequency in [freqlist]. *)
Definition read_header (path : string) : M loaded_map :=
  xtmp <- hp_read_map_h path ;;
  let xtmp_data := map_data xtmp in
  freq <- py_card "FREQ" (card_FREQ xtmp) ;;
  units <- py_card "TUNIT1" (card_TUNIT1 xtmp) ;;
  let freq_str := py_str_int freq in
  idx <- list_index (py_str_int freq) freqlist ;;
  let currfreq := freq in
  ret {| xtmp_data := xtmp_data; map_units := units; idx := idx;
         currfreq := currfreq |}.

Section Measure.
(** The measurement routine the loop calls. *)
Variable measure : haperflux_args -> M (float * float * float).

(** Lines 227-241: one (target, map) cell. *)
Definition phot_cell (radius : option float) (rinner router apcor : float)
    (targets : list target) (m : loaded_map) (ct2 : nat)
    (t : tables) (ct : nat) : M tables :=
  tg <- py_getitem targets ct ;;
  r <- measure (cell_args radius rinner router m tg) ;;
  ret (store_cell radius apcor ct ct2 r t).

(** Lines 212-241: one map, every target. *)
Definition phot_map (radius : option float) (rinner router apcor : float)
    (targets : list target) (ns : nat) (fn : list string)
    (t : tables) (ct2 : nat) : M tables :=
  path <- py_getitem fn ct2 ;;
  m <- read_header path ;;
  radval <- (match radius with
             | None => py_getitem fwhmlist (idx m)
             | Some r => ret r
             end) ;;
  for_each (phot_cell radius rinner router apcor targets m ct2)
           (py_range ns) t.

Definition healpix_phot_with (inputlist maplist : string)
    (radius : option float) (rinner router : float) (galactic : bool)
    : M tables :=
  apcor <- aperture_correction radius rinner router ;;
  targets <- (if galactic then
                tg <- genfromtxt_targets inputlist ;; ret (Some tg)
              else ret None) ;;
  targets <- (match targets with
              | Some tg => ret tg
              | None => raise (UnboundLocalError "targets")
              end) ;;
  ns <- len_genfromtxt targets ;;
  fn <- genfromtxt_str maplist ;;
  nmaps <- len_genfromtxt fn ;;
  let t := {| fd_all := np_zeros ns nmaps;
              fd_err_all := np_zeros ns nmaps;
              fd_bg_all := np_zeros ns nmaps |} in
  for_each (phot_map radius rinner router apcor targets ns fn)
           (py_range nmaps) t.

End Measure.

(** [healpix_phot] calls the module's own [haperflux]. *)
Definition healpix_phot (inputlist maplist : string)
    (radius : option float) (rinner router : float) (galactic : bool)
    : M tables :=
  healpix_phot_with haperflux inputlist maplist radius rinner router galactic.

End Batch.

(* ===================================================================== *)
(** ** A host for the examples                                            *)
(* ===================================================================== *)

(** The examples run on a small sky: an nside = 2 map in RING order (48
    pixels) seen from the centre of pixel 0 (longitude 45, latitude
    66.4435 degrees).  The numeric functions are exact on the values
    the examples meet; the readers know four files. *)

Module Demo.
#[local] Open Scope float_scope.

(** The integer a float holds, when it holds one. *)
Definition float_integer (x : float) : option Z :=
  match Prim2SF x with
  | S754_zero _ => Some 0%Z
  | S754_finite s m e =>
      if (0 <=? e)%Z then Some (cond_Zopp s (Zpos m * 2 ^ e))
      else if (Zpos m mod 2 ^ (- e) =? 0)%Z
           then Some (cond_Zopp s (Zpos m / 2 ^ (- e)))
           else None
  | _ => None
  end.

Fixpoint pow_nat (x : float) (n : nat) : float :=
  match n with
  | O => 1
  | S n' => x * pow_nat x n'
  end.

(** The power function on integral exponents, by repeated multiplication;
    a fractional exponent is answered NaN. *)
Definition pow (x y : float) : float :=
  match float_integer y with
  | Some (Zneg p) => 1 / pow_nat x (Pos.to_nat p)
  | Some z => pow_nat x (Z.to_nat z)
  | None => nan
  end.

Definition is_inf (x : float) : bool :=
  match classify x with
  | PInf | NInf => true
  | _ => false
  end.

(** [x ** y] on Python floats. *)
Definition float_pow (x y : float) : M float :=
  if PrimFloat.eqb x 0 && PrimFloat.ltb y 0 then raise ZeroDivisionError
  else
    let r := pow x y in
    if np_isfinite x && np_isfinite y && is_inf r then raise OverflowError
    else ret r.

(** [round(x, nd)] for [nd >= 0]: the nearest multiple of [10 ** -nd],
    halves away from zero. *)
Definition round (x : float) (nd : Z) : float :=
  match Prim2SF x with
  | S754_finite s m e =>
      let num := (Zpos m * 2 ^ Z.max e 0 * 10 ^ nd)%Z in
      let den := (2 ^ Z.max (- e) 0)%Z in
      let q := ((2 * num + den) / (2 * den))%Z in
      let r := float_of_Z q / float_of_Z (10 ^ nd) in
      if s then - r else r
  | _ => x
  end.

(** [x % y] with the sign of the divisor. *)
Definition remainder (x y : float) : float :=
  match Prim2SF x, Prim2SF y with
  | S754_finite sx mx ex, S754_finite sy my ey =>
      let e := Z.min ex ey in
      let X := cond_Zopp sx (Zpos mx * 2 ^ (ex - e)) in
      let Y := cond_Zopp sy (Zpos my * 2 ^ (ey - e)) in
      float_of_dyadic (X mod Y) e
  | S754_zero _, S754_finite sy _ _ => if sy then - 0 else 0
  | S754_zero _, S754_infinity sy => if sy then - 0 else 0
  | S754_finite sx _ _, S754_infinity sy => if Bool.eqb sx sy then x else y
  | _, _ => nan
  end.

(** Left-to-right sum. *)
Definition sum (l : list float) : float := fold_left PrimFloat.add l 0.

Fixpoint insert_sorted (x : float) (l : list float) : list float :=
  match l with
  | [] => [x]
  | y :: l' => if PrimFloat.leb x y then x :: l else y :: insert_sorted x l'
  end.
Definition sort (l : list float) : list float :=
  fold_right insert_sorted [] l.

Definition has_nan (l : list float) : bool :=
  existsb (fun x => negb (PrimFloat.eqb x x)) l.

Definition median (l : list float) : float :=
  if has_nan l then nan
  else
    let s := sort l in
    let n := length l in
    if Nat.even n then (nth (n / 2 - 1) s nan + nth (n / 2) s nan) / 2
    else nth (n / 2) s nan.

Definition mean (l : list float) : float := sum l / float_of_nat (length l).

Definition std (l : list float) : float :=
  let m := mean l in
  PrimFloat.sqrt (mean (map (fun x => (x - m) * (x - m)) l)).

Definition mad (l : list float) : float :=
  let m := median l in
  median (map (fun x => abs (x - m)) l) * 1.482602218505602.

(** The angle, in radians, between the centre of pixel 0 and the centre of
    each of the 48 pixels. *)
Definition pixel_distance : list float :=
  [ 0.0000; 0.5730; 0.8223; 0.5730; 0.4815; 0.4815;
    0.7596; 1.0505; 1.2282; 1.2282; 1.0505; 0.7596;
    0.8198; 0.9619; 1.2603; 1.5317; 1.6421; 1.5317;
    1.2603; 0.9619; 1.1926; 1.1926; 1.4173; 1.7243;
    1.9490; 1.9490; 1.7243; 1.4173; 1.4995; 1.6099;
    1.8813; 2.1797; 2.3218; 2.1797; 1.8813; 1.6099;
    1.9134; 1.9134; 2.0911; 2.3820; 2.6601; 2.6601;
    2.3820; 2.0911; 2.3193; 2.5686; 3.1416; 2.5686 ].

(** The direction of the centre of pixel 0, whatever the angles. *)
Definition ang2vec (theta phi : float) : vec :=
  (0.2825970826302196, 0.28259708263021954, 0.9166666666666666).

(** The pixels whose centre is within [radius] of the centre of pixel 0,
    in increasing order. *)
Definition query_disc (nside : float) (v : vec) (radius : float) (nest : bool)
    : list nat :=
  if PrimFloat.eqb nside 2 && negb nest
  then np_where (map (fun d => PrimFloat.leb d radius) pixel_distance)
  else [].

(** A map of ones, and the same map with pixel 0 marked unseen. *)
Definition flat_map : list float := replicate 48 1.
Definition hole_map : list float := UNSEEN :: replicate 47 1.

Definition read_map (m : pymap) (nest : bool) : M (list float) :=
  raise (IOError "read_map").

Definition read_map_h (path : string) : M map_file :=
  if String.eqb path "flat.fits" then
    ret {| map_data := flat_map; card_FREQ := Some 100%Z;
           card_TUNIT1 := Some "Jy/pixel" |}
  else if String.eqb path "hole.fits" then
    ret {| map_data := hole_map; card_FREQ := Some 100%Z;
           card_TUNIT1 := Some "Jy/pixel" |}
  else raise (IOError path).

Definition pixel0 (name : string) : target :=
  {| sname := name; glon := 45; glat := 66.44353569089877 |}.

Definition read_targets (path : string) : M (list target) :=
  if String.eqb path "targets.csv" then ret [pixel0 "a"; pixel0 "b"]
  else raise (IOError path).

Definition read_maps (path : string) : M (list string) :=
  if String.eqb path "maps.txt" then ret ["hole.fits"; "flat.fits"]
  else raise (IOError path).

(** The host, for a process started with the arguments [argv]. *)
Definition host (argv : list string) : Host :=
  {| sys_argv := argv;
     py_pow := float_pow;
     py_round := round;
     np_power := pow;
     np_exp := fun _ => nan;   (* no example uses a CMB unit *)
     np_remainder := remainder;
     np_sum := sum;
     np_median := median;
     np_std := std;
     mad_std := mad;
     hp_ang2vec := ang2vec;
     hp_query_disc := query_disc;
     hp_read_map := read_map;
     hp_read_map_h := read_map_h;
     genfromtxt_targets := read_targets;
     genfromtxt_str := read_maps |}.

(** A process started as [python haperflux.py]. *)
Definition plain : Host := host ["haperflux.py"].

(** The measurement of pixel 0's direction on [m], as [healpix_phot] asks
    for it with radii of 600, 1800 and 2700 arcminutes. *)
Definition measure_args (m : list float) : haperflux_args :=
  {| inmap := MapArray m; freq := 100; lon := 45; lat := 66.44353569089877;
     res_arcmin := Some 600; aper_inner_radius := Some 600;
     aper_outer_radius1 := 1800; aper_outer_radius2 := 2700;
     units := "Jy/pixel";
     fd_err := 0; nested := false; noise_model := 0; arcmin := true |}.

(** The same measurement under noise model 1. *)
Definition measure_args_1 (m : list float) : haperflux_args :=
  {| inmap := MapArray m; freq := 100; lon := 45; lat := 66.44353569089877;
     res_arcmin := Some 600; aper_inner_radius := Some 600;
     aper_outer_radius1 := 1800; aper_outer_radius2 := 2700;
     units := "Jy/pixel";
     fd_err := 0; nested := false; noise_model := 1; arcmin := true |}.

(** A process started with eight arguments after the script's name. *)
Definition crowded : Host :=
  host ["haperflux.py"; "a"; "b"; "c"; "d"; "e"; "f"; "g"; "h"].

(** A stand-in for the measurement routine: it answers (NaN, NaN, 3) on a
    map whose first pixel is unseen and (2, 0.5, 3) on any other. *)
Definition nan_on_hole (a : haperflux_args) : M (float * float * float) :=
  match inmap a with
  | MapArray (x :: _) =>
      if PrimFloat.eqb x UNSEEN then ret (nan, nan, 3) else ret (2, 0.5, 3)
  | _ => ret (2, 0.5, 3)
  end.

End Demo.

(** Further hosts and routines for the examples, built on [Demo.plain]. *)
Module Fixtures.
#[local] Open Scope float_scope.

(** The host [h] with other readers of the map list and of the maps. *)
Definition with_readers (h : Host) (maps : string -> M (list string))
    (header : string -> M map_file) : Host :=
  {| sys_argv := @sys_argv h;
     py_pow := @py_pow h;
     py_round := @py_round h;
     np_power := @np_power h;
     np_exp := @np_exp h;
     np_remainder := @np_remainder h;
     np_sum := @np_sum h;
     np_median := @np_median h;
     np_std := @np_std h;
     mad_std := @mad_std h;
     hp_ang2vec := @hp_ang2vec h;
     hp_query_disc := @hp_query_disc h;
     hp_read_map := @hp_read_map h;
     hp_read_map_h := header;
     genfromtxt_targets := @genfromtxt_targets h;
     genfromtxt_str := maps |}.

(** A list of maps without a line. *)
Definition no_maps : Host :=
  with_readers Demo.plain (fun _ => ret []) Demo.read_map_h.

(** Maps whose [FREQ] card is 101, which is none of the nineteen bands. *)
Definition odd_band : Host :=
  with_readers Demo.plain Demo.read_maps
    (fun _ => ret {| map_data := Demo.flat_map; card_FREQ := Some 101%Z;
                     card_TUNIT1 := Some "Jy/pixel" |}).



(** The measurement of [Demo.measure_args] under a noise model 2. *)
Definition measure_args_2 (m : list float) : haperflux_args :=
  {| inmap := MapArray m; freq := 100; lon := 45; lat := 66.44353569089877;
     res_arcmin := Some 600; aper_inner_radius := Some 600;
     aper_outer_radius1 := 1800; aper_outer_radius2 := 2700;
     units := "Jy/pixel";
     fd_err := 0; nested := false; noise_model := 2; arcmin := true |}.

(** One good pixel in the aperture and none in the annulus. *)
Definition bare_aperture : apertures :=
  {| thisfreq := 100; hmap := Demo.flat_map; npix := 48;
     innerpix := [0%nat]; ninnerpix := 1;
     outerpix1 := [0%nat]; outerpix2 := [0%nat];
     bgpix := []; nbgpix := 0 |}.

(** [Demo.plain] with a catalogue without a target. *)
Definition no_targets : Host :=
  {| sys_argv := @sys_argv Demo.plain;
     py_pow := @py_pow Demo.plain;
     py_round := @py_round Demo.plain;
     np_power := @np_power Demo.plain;
     np_exp := @np_exp Demo.plain;
     np_remainder := @np_remainder Demo.plain;
     np_sum := @np_sum Demo.plain;
     np_median := @np_median Demo.plain;
     np_std := @np_std Demo.plain;
     mad_std := @mad_std Demo.plain;
     hp_ang2vec := @hp_ang2vec Demo.plain;
     hp_query_disc := @hp_query_disc Demo.plain;
     hp_read_map := @hp_read_map Demo.plain;
     hp_read_map_h := @hp_read_map_h Demo.plain;
     genfromtxt_targets := fun _ => ret [];
     genfromtxt_str := @genfromtxt_str Demo.plain |}.

End Fixtures.

(* ===================================================================== *)
(** ** Vocabulary of the statements                                       *)
(* ===================================================================== *)

(** Every label [convertToJy] compares [units] with. *)
Definition supported_units : list string :=
  ["K"; "K_RJ"; "KRJ"] ++ ["mK"; "mK_RJ"; "mKRJ"] ++ ["uK"; "uK_RJ"; "uKRJ"]
  ++ ["K_CMB"; "KCMB"] ++ ["mK_CMB"; "mKCMB"] ++ ["uK_CMB"; "uKCMB"]
  ++ ["MJy/sr"; "MJY/SR"; "MjySr"]
  ++ ["Jy/pixel"; "JY/PIXEL"; "JY/PIX"; "JyPix"]
  ++ ["average"; "avg"; "Average"; "AVG"].

(** The notice printed when both [npix] and [pix_area] are given. *)
Definition both_given_notice (npix : option number)
    (pix_area : option float) : list string :=
  match pix_area, npix with
  | Some _, Some _ =>
      ["Only one of npix or pix_area should be specified! Proceeding with npix."]
  | _, _ => []
  end.

(** The lines [haperflux] prints for an aperture without a good pixel. *)
Definition no_good_pixels : list string :=
  [""; "***No good pixels inside aperture!***"; ""].

(** The lines [haperflux] prints when the process has too many arguments. *)
Definition usage : list string :=
  [""; "SYNTAX:-"; ""; usage_line; ""].

(** What [store_cell] leaves in the cell for a measurement [(fd, fd_err,
    fd_bg)]. *)
Definition stored (radius : option float) (apcor : float)
    (r : float * float * float) : float * float * float :=
  let '(fd, fd_err, fd_bg) := r in
  if negb (np_isfinite fd_err) then ((-1)%float, (-1)%float, fd_bg)
  else match radius with
       | None => ((fd * apcor)%float, (fd_err * apcor)%float, fd_bg)
       | Some _ => (fd, fd_err, fd_bg)
       end.

(** The three entries of the result tables at [ct, ct2]. *)
Definition cells (t : tables) (ct ct2 : nat)
    : option float * option float * option float :=
  (cell (fd_all t) ct ct2, cell (fd_err_all t) ct ct2,
   cell (fd_bg_all t) ct ct2).

Definition shaped (t : tables) (ns nmaps : nat) : Prop :=
  shape (fd_all t) ns nmaps /\ shape (fd_err_all t) ns nmaps
  /\ shape (fd_bg_all t) ns nmaps.

(** The loops of [healpix_phot] as folds: [upd ct ct2] is what the body
    does to the tables at target [ct] and map [ct2]. *)
Definition fill_column (upd : nat -> nat -> tables -> tables)
    (ct2 : nat) (cts : list nat) (t : tables) : tables :=
  fold_left (fun t ct => upd ct ct2 t) cts t.

Definition fill_table (upd : nat -> nat -> tables -> tables)
    (cts ct2s : list nat) (t : tables) : tables :=
  fold_left (fun t ct2 => fill_column upd ct2 cts t) ct2s t.

Definition no_map : loaded_map :=
  {| xtmp_data := []; map_units := ""; idx := 0; currfreq := 0 |}.

(** What the measurement of target [ct] on map [ct2] returned. *)
Definition cell_result `{Host}
    (measure : haperflux_args -> M (float * float * float))
    (radius : option float) (rinner router : float)
    (targets : list target) (fn : list string) (ct ct2 : nat)
    : float * float * float :=
  match targets !! ct, fn !! ct2 with
  | Some tg, Some path =>
      value_or (0, 0, 0)%float
        (measure (cell_args radius rinner router
                    (value_or no_map (read_header path)) tg))
  | _, _ => (0, 0, 0)%float
  end.


(** The labels [convertToJy] treats alike, branch by branch. *)
Definition alias_families : list (list string) :=
  [ ["K"; "K_RJ"; "KRJ"]; ["mK"; "mK_RJ"; "mKRJ"]; ["uK"; "uK_RJ"; "uKRJ"];
    ["K_CMB"; "KCMB"]; ["mK_CMB"; "mKCMB"]; ["uK_CMB"; "uKCMB"];
    ["MJy/sr"; "MJY/SR"; "MjySr"];
    ["Jy/pixel"; "JY/PIXEL"; "JY/PIX"; "JyPix"];
    ["average"; "avg"; "Average"; "AVG"] ].

(** A pixel of the map whose value is not [hp.UNSEEN]. *)
Definition good_pixel (hmap : list float) (p : nat) : Prop :=
  exists v, hmap !! p = Some v /\ PrimFloat.eqb v UNSEEN = false.

(** The tables [np.zeros] starts the batch with. *)
Definition zero_tables (ns nmaps : nat) : tables :=
  {| fd_all := np_zeros ns nmaps; fd_err_all := np_zeros ns nmaps;
     fd_bg_all := np_zeros ns nmaps |}.

(* ===================================================================== *)
(** ** Laws of the computation monad                                      *)
(* ===================================================================== *)

Lemma bind_ret_l {A B} (a : A) (f : A -> M B) : bind (ret a) f = f a.
Proof. unfold bind, ret. destruct (f a) as [out r]. reflexivity. Qed.

Lemma bind_ret_r {A} (m : M A) : bind m ret = m.
Proof.
  destruct m as [out [a | e]]; simpl; [| reflexivity].
  rewrite app_nil_r. reflexivity.
Qed.

Lemma bind_assoc {A B C} (m : M A) (f : A -> M B) (g : B -> M C) :
  bind (bind m f) g = bind m (fun a => bind (f a) g).
Proof.
  destruct m as [out [a | e]]; simpl; [| reflexivity].
  destruct (f a) as [out1 [b | e]]; simpl; [| reflexivity].
  destruct (g b) as [out2 r]. rewrite app_assoc. reflexivity.
Qed.

Lemma bind_raise {A B} (e : exn) (f : A -> M B) : bind (raise e) f = raise e.
Proof. reflexivity. Qed.

Lemma outcome_bind {A B} (m : M A) (f : A -> M B) :
  outcome (bind m f) =
  match outcome m with
  | Ret a => outcome (f a)
  | Raise e => Raise e
  end.
Proof.
  destruct m as [out [a | e]]; simpl; [| reflexivity].
  destruct (f a); reflexivity.
Qed.

Lemma output_bind {A B} (m : M A) (f : A -> M B) :
  output (bind m f) =
  match outcome m with
  | Ret a => output m ++ output (f a)
  | Raise e => output m
  end.
Proof.
  destruct m as [out [a | e]]; simpl; [| reflexivity].
  destruct (f a); reflexivity.
Qed.

Lemma returns_bind {A B} (m : M A) (f : A -> M B) :
  returns (bind m f) = true ->
  exists a, outcome m = Ret a /\ returns (f a) = true.
Proof.
  unfold returns. rewrite outcome_bind.
  destruct (outcome m) as [a | e]; [eauto | discriminate].
Qed.

Lemma load_global_unbound {A} (name : string) (v : A) :
  existsb (String.eqb name) module_globals = false ->
  load_global name v = raise (NameError name).
Proof. intros E. unfold load_global. rewrite E. reflexivity. Qed.

(** Two floats with different bit patterns are different. *)
Lemma float_neq (x y : float) : Prim2SF x <> Prim2SF y -> x <> y.
Proof. intros N E. apply N. rewrite E. reflexivity. Qed.

(* ===================================================================== *)
(** ** convertToJy                                                        *)
(* ===================================================================== *)

Section ConversionFacts.
Context `{Host}.
#[local] Open Scope float_scope.

(** C9, as the code has it: the factor for 'mK_RJ' is the factor for
    'K_RJ' divided by 1.0e3.  For every frequency, pixel count and solid
    angle the 'mK_RJ' call prints what the 'K_RJ' call prints, raises what
    it raises, and returns its factor divided once by 1000. *)
Theorem convertToJy_mK_RJ_is_K_RJ_over_1000
    (thisfreq : float) (npix : option number) (pix_area : option float) :
  convertToJy "mK_RJ" thisfreq npix pix_area =
  (k <- convertToJy "K_RJ" thisfreq npix pix_area ;; ret (k / 1.0e3)).
Proof.
  unfold convertToJy. cbn [unit_in existsb String.eqb Ascii.eqb Bool.eqb orb].
  rewrite !bind_assoc. f_equal.
Qed.

(** C3, as the code has it: a label outside the table makes [convertToJy]
    print "Invalid units specified! " and return the factor 1.0 it
    started with, whenever lines 144-145 come to a solid angle: one is
    given, or the pixel count is a numpy scalar or a Python number other
    than zero. *)
Theorem convertToJy_unknown_units_factor_one
    (units : string) (thisfreq : float) (npix : option number)
    (pix_area : option float) :
  unit_in units supported_units = false ->
  returns (resolve_pix_area npix pix_area) = true ->
  convertToJy units thisfreq npix pix_area =
  (both_given_notice npix pix_area ++ ["Invalid units specified! "], Ret 1.0).
Proof.
  intros Hu Hgiven. unfold supported_units, unit_in in Hu.
  repeat (rewrite existsb_app in Hu; apply orb_false_elim in Hu;
          destruct Hu as [? Hu]).
  unfold convertToJy, unit_in.
  repeat match goal with E : existsb _ _ = false |- _ => rewrite E; clear E end.
  revert Hgiven. unfold resolve_pix_area, div_by, py_div.
  destruct pix_area as [a |], npix as [[n | n] |]; cbn [both_given_notice];
    try reflexivity; try discriminate.
  destruct (PrimFloat.eqb n 0); [discriminate | reflexivity].
Qed.

(** With both a pixel count and a solid angle the factor is the one the
    solid angle alone gives: line 144 replaces [pix_area] only when it is
    [None], so the pixel count is not used. *)
Lemma convertToJy_both_given (units : string) (thisfreq : float) (n : number)
    (a : float) :
  outcome (convertToJy units thisfreq (Some n) (Some a)) =
  outcome (convertToJy units thisfreq None (Some a)).
Proof.
  unfold convertToJy. rewrite !outcome_bind. reflexivity.
Qed.

End ConversionFacts.

(** C7, a call with both a pixel count and a solid angle: the factor is
    always the one the solid angle alone gives.  For 'K_RJ' at 100 GHz, a
    pixel count of 48 and a solid angle of 1 sr, the notice says
    "Proceeding with npix" and the factor returned is the one of 1 sr,
    which is not the factor of the 48 pixels. *)
Theorem convertToJy_both_given_uses_pix_area :
  (forall (H : Host) units thisfreq n a,
      outcome (convertToJy units thisfreq (Some n) (Some a)) =
      outcome (convertToJy units thisfreq None (Some a)))
  /\ @convertToJy Demo.plain "K_RJ" 100 (Some (PyNumber 48)) (Some 1%float) =
     (["Only one of npix or pix_area should be specified! Proceeding with npix."],
      Ret 307503588.5624252%float)
  /\ @convertToJy Demo.plain "K_RJ" 100 (Some (PyNumber 48)) None =
     ([], Ret 80504251.231684431%float).
Proof.
  split; [| split].
  - intros. apply convertToJy_both_given.
  - vm_compute. reflexivity.
  - vm_compute. reflexivity.
Qed.

(** C9, the claim as stated fails: at 100 GHz on 48 pixels the 'mK_RJ'
    factor is 80504.25..., not 1000 times the 'K_RJ' factor 80504251.23... *)
Lemma convertToJy_mK_RJ_not_1000_K_RJ :
  exists k m : float,
    outcome (@convertToJy Demo.plain "K_RJ" 100 (Some (PyNumber 48)) None)
      = Ret k
    /\ outcome (@convertToJy Demo.plain "mK_RJ" 100 (Some (PyNumber 48)) None)
      = Ret m
    /\ m <> (1000 * k)%float.
Proof.
  eexists; eexists. split; [vm_compute; reflexivity |].
  split; [vm_compute; reflexivity |].
  apply float_neq. vm_compute. discriminate.
Qed.

(** C3, the claim as stated fails: the label "Kelvin" is not in the table
    and [convertToJy] returns the number 1.0 for it. *)
Lemma convertToJy_Kelvin_returns_one :
  unit_in "Kelvin" supported_units = false
  /\ @convertToJy Demo.plain "Kelvin" 100 (Some (PyNumber 48)) None =
     (["Invalid units specified! "], Ret 1%float).
Proof. split; vm_compute; reflexivity. Qed.

(** The label "furlong" with a pixel count of 48. *)
Lemma convertToJy_unknown_units_factor_one_witness :
  @convertToJy Demo.plain "furlong" 100 (Some (PyNumber 48)) None =
  (["Invalid units specified! "], Ret 1%float).
Proof.
  apply (@convertToJy_unknown_units_factor_one Demo.plain "furlong" 100%float
           (Some (PyNumber 48)) None).
  - reflexivity.
  - reflexivity.
Defined.

(* ===================================================================== *)
(** ** haperflux                                                          *)
(* ===================================================================== *)

Section PhotometryFacts.
Context `{Host}.

(** C10: when the process holds more than 8 command-line arguments
    ([len(sys.argv) > 8]), [haperflux] prints the usage lines and raises
    [SystemExit], whatever its own arguments are. *)
Theorem haperflux_usage_exit (a : haperflux_args) :
  8 < length sys_argv ->
  haperflux a = (usage, Raise SystemExit).
Proof.
  intros Hargv. unfold haperflux.
  apply Nat.ltb_lt in Hargv. rewrite Hargv. reflexivity.
Qed.

(** X1: the name called at line 355 is bound nowhere, so [haperflux]
    returns no result, for any host and any arguments. *)
Lemma haperflux_never_returns (a : haperflux_args) :
  returns (haperflux a) = false.
Proof.
  unfold haperflux, returns. rewrite !outcome_bind.
  destruct (outcome (if (8 <? length sys_argv)%nat then _ else _));
    [| reflexivity].
  destruct (outcome (haperflux_apertures a)); reflexivity.
Qed.

(** Noise model 0 reads [pix_area], which [haperflux] never assigns and the
    module does not bind. *)
Lemma noise_model_0_NameError (a : haperflux_args) (ap : apertures)
    (factor : float) :
  noise_model_0 a ap factor = ([], Raise (NameError "pix_area")).
Proof. reflexivity. Qed.

End PhotometryFacts.

(** A process started with eight arguments after the script's name. *)
Lemma haperflux_usage_exit_witness :
  @haperflux Demo.crowded (Demo.measure_args Demo.flat_map) =
  (usage, Raise SystemExit).
Proof.
  apply (@haperflux_usage_exit Demo.crowded). simpl. lia.
Defined.

(** C1, at a disc query that answers [0; 4; 5] for the first outer radius
    and [0; 1; 3; 4; 5; 6; 11] for the second: the annulus of [haperflux]
    is [1; 3; 4; 11].  It holds pixel 4, which is inside the first outer
    radius, and misses pixel 6, which is outside it: [np.delete] removed
    the pixels at POSITIONS 0, 4 and 5 of the outer list. *)
Theorem haperflux_annulus_by_position :
  exists ap,
    @haperflux_apertures Demo.plain (Demo.measure_args Demo.flat_map)
      = ([], Ret ap)
    /\ outerpix1 ap = [0; 4; 5]
    /\ outerpix2 ap = [0; 1; 3; 4; 5; 6; 11]
    /\ bgpix ap = [1; 3; 4; 11]
    /\ nbgpix ap = 4.
Proof.
  eexists. split; [vm_compute; reflexivity |].
  repeat split.
Qed.

(** C2, an aperture without a good pixel: [haperflux] prints its notice
    and raises [SystemExit] instead of returning (NaN, NaN, _), and the
    batch that called it ends with the same [SystemExit], with no table. *)
Theorem haperflux_no_good_pixels_exits :
  @haperflux Demo.plain (Demo.measure_args Demo.hole_map)
    = (no_good_pixels, Raise SystemExit)
  /\ @healpix_phot Demo.plain "targets.csv" "maps.txt"
       (Some 600%float) 1800%float 2700%float true
    = (no_good_pixels, Raise SystemExit).
Proof. split; vm_compute; reflexivity. Qed.

(** C4, noise model 0: on the map of ones [haperflux] raises [NameError]
    at line 355, and the statements of noise model 0 raise [NameError] on
    [pix_area] for every host, argument and factor. *)
Theorem haperflux_noise_model_0_NameError :
  @haperflux Demo.plain (Demo.measure_args Demo.flat_map)
    = ([], Raise (NameError "covnertToJy"))
  /\ (forall (H : Host) a ap factor,
        noise_model_0 a ap factor = ([], Raise (NameError "pix_area"))).
Proof.
  split; [vm_compute; reflexivity |].
  intros. apply noise_model_0_NameError.
Qed.

(** C5, noise model 1: on the map of ones [haperflux] raises [NameError]
    at line 355, before any error is computed. *)
Theorem haperflux_noise_model_1_NameError :
  @haperflux Demo.plain (Demo.measure_args_1 Demo.flat_map)
    = ([], Raise (NameError "covnertToJy")).
Proof. vm_compute. reflexivity. Qed.

(* ===================================================================== *)
(** ** healpix_phot                                                       *)
(* ===================================================================== *)

Section BatchFacts.
Context `{Host}.

(** C6, without a radius: line 189 divides by [None], so [healpix_phot]
    raises [TypeError] before it reads a target or a map, whatever routine
    measures the cells. *)
Theorem healpix_phot_no_radius_TypeError
    (measure : haperflux_args -> M (float * float * float))
    (inputlist maplist : string) (rinner router : float) (galactic : bool) :
  healpix_phot_with measure inputlist maplist None rinner router galactic
  = ([], Raise TypeError).
Proof.
  unfold healpix_phot_with, aperture_correction. cbn [py_float].
  rewrite !bind_raise. reflexivity.
Qed.

End BatchFacts.

(* ===================================================================== *)
(** ** The result tables                                                  *)
(* ===================================================================== *)

Lemma shape_np_zeros (ns nmaps : nat) : shape (np_zeros ns nmaps) ns nmaps.
Proof.
  split; [apply length_replicate |].
  apply Forall_replicate, length_replicate.
Qed.

Lemma shape_set_cell (t : table) (ns nmaps ct ct2 : nat) (v : float) :
  shape t ns nmaps -> shape (set_cell t ct ct2 v) ns nmaps.
Proof.
  intros [Hlen Hrows]. split.
  - unfold set_cell. rewrite length_alter. exact Hlen.
  - unfold set_cell. apply Forall_alter; [exact Hrows |].
    intros row _ Hrow. rewrite length_insert. exact Hrow.
Qed.

Lemma cell_set_cell_eq (t : table) (ns nmaps ct ct2 : nat) (v : float) :
  shape t ns nmaps -> ct < ns -> ct2 < nmaps ->
  cell (set_cell t ct ct2 v) ct ct2 = Some v.
Proof.
  intros [Hlen Hrows] Hct Hct2. unfold cell, set_cell.
  rewrite list_lookup_alter_eq.
  destruct (lookup_lt_is_Some_2 t ct) as [row Hrow]; [lia |].
  rewrite Hrow. simpl. apply list_lookup_insert_eq.
  rewrite (Forall_lookup_1 _ _ _ _ Hrows Hrow). exact Hct2.
Qed.

Lemma cell_set_cell_ne (t : table) (ct ct2 i j : nat) (v : float) :
  (i, j) <> (ct, ct2) ->
  cell (set_cell t ct ct2 v) i j = cell t i j.
Proof.
  intros Hne. unfold cell, set_cell.
  destruct (decide (ct = i)) as [-> | Hi].
  - rewrite list_lookup_alter_eq. destruct (t !! i) as [row |]; simpl;
      [| reflexivity].
    apply list_lookup_insert_ne. congruence.
  - rewrite list_lookup_alter_ne by exact Hi. reflexivity.
Qed.

Section StoreCell.
Variables (radius : option float) (apcor : float).

Lemma shaped_store_cell (ns nmaps ct ct2 : nat) (r : float * float * float)
    (t : tables) :
  shaped t ns nmaps -> shaped (store_cell radius apcor ct ct2 r t) ns nmaps.
Proof.
  intros (Hfd & Herr & Hbg). destruct r as [[fd fd_err] fd_bg].
  unfold store_cell, shaped.
  destruct (negb (np_isfinite fd_err)); [| destruct radius]; simpl;
    (split; [| split]); repeat apply shape_set_cell; assumption.
Qed.

Lemma cells_store_cell_ne (ct ct2 i j : nat) (r : float * float * float)
    (t : tables) :
  (i, j) <> (ct, ct2) ->
  cells (store_cell radius apcor ct ct2 r t) i j = cells t i j.
Proof.
  intros Hne. destruct r as [[fd fd_err] fd_bg]. unfold store_cell, cells.
  destruct (negb (np_isfinite fd_err)); [| destruct radius]; simpl;
    rewrite !cell_set_cell_ne by exact Hne; reflexivity.
Qed.

Lemma cells_store_cell_eq (ns nmaps ct ct2 : nat) (r : float * float * float)
    (t : tables) :
  shaped t ns nmaps -> ct < ns -> ct2 < nmaps ->
  cells (store_cell radius apcor ct ct2 r t) ct ct2 =
  (let '(fd, fd_err, fd_bg) := stored radius apcor r in
   (Some fd, Some fd_err, Some fd_bg)).
Proof.
  intros (Hfd & Herr & Hbg) Hct Hct2. destruct r as [[fd fd_err] fd_bg].
  unfold store_cell, cells, stored.
  destruct (negb (np_isfinite fd_err)); [| destruct radius]; simpl;
    repeat (erewrite cell_set_cell_eq;
            [| repeat apply shape_set_cell; eassumption | exact Hct | exact Hct2]);
    reflexivity.
Qed.

End StoreCell.

(** A loop whose every step returns is the fold of the steps. *)
Lemma for_each_outcome {S X} (body : S -> X -> M S) (step : S -> X -> S)
    (xs : list X) :
  (forall s x, x ∈ xs -> outcome (body s x) = Ret (step s x)) ->
  forall s, outcome (for_each body xs s) = Ret (fold_left step xs s).
Proof.
  induction xs as [| x xs IH]; intros Hstep s; [reflexivity |].
  cbn [for_each fold_left]. rewrite outcome_bind.
  rewrite Hstep by (apply elem_of_cons; auto).
  apply IH. intros s' x' Hx'. apply Hstep. apply elem_of_cons. auto.
Qed.

(** Filling a table cell by cell.  [upd ct ct2] writes the cell
    [(ct, ct2)] and no other; the two nested loops then leave [val ct ct2]
    in every cell. *)
Section Fill.
Variables (ns nmaps : nat).
Variable upd : nat -> nat -> tables -> tables.
Variable val : nat -> nat -> option float * option float * option float.
Hypothesis upd_shaped : forall ct ct2 t,
  shaped t ns nmaps -> shaped (upd ct ct2 t) ns nmaps.
Hypothesis upd_other : forall ct ct2 i j t,
  (i, j) <> (ct, ct2) -> cells (upd ct ct2 t) i j = cells t i j.
Hypothesis upd_same : forall ct ct2 t,
  shaped t ns nmaps -> ct < ns -> ct2 < nmaps ->
  cells (upd ct ct2 t) ct ct2 = val ct ct2.

#[local] Abbreviation fill_column := (fill_column upd).
#[local] Abbreviation fill_table := (fill_table upd).

Lemma fill_column_spec (ct2 : nat) (cts : list nat) :
  NoDup cts -> (forall ct, ct ∈ cts -> ct < ns) -> ct2 < nmaps ->
  forall t, shaped t ns nmaps ->
    shaped (fill_column ct2 cts t) ns nmaps
    /\ (forall ct, ct ∈ cts -> cells (fill_column ct2 cts t) ct ct2 = val ct ct2)
    /\ (forall i j, j <> ct2 \/ i ∉ cts ->
          cells (fill_column ct2 cts t) i j = cells t i j).
Proof.
  intros Hnd Hlt Hct2.
  induction cts as [| ct cts IH]; intros t Ht.
  - split; [exact Ht |]. split; [| reflexivity].
    intros ct Hin. inversion Hin.
  - apply NoDup_cons in Hnd as [Hfresh Hnd].
    assert (Hct : ct < ns) by (apply Hlt, elem_of_cons; auto).
    assert (Hlt' : forall c, c ∈ cts -> c < ns)
      by (intros c Hc; apply Hlt, elem_of_cons; auto).
    destruct (IH Hnd Hlt' (upd ct ct2 t)) as (Hshape & Hdone & Hrest);
      [apply upd_shaped, Ht |].
    unfold fill_column in *. cbn [fold_left].
    split; [exact Hshape |]. split.
    + intros c Hc. apply elem_of_cons in Hc as [-> | Hc].
      * rewrite Hrest by (right; exact Hfresh).
        apply upd_same; assumption.
      * apply Hdone, Hc.
    + intros i j Hij. rewrite Hrest.
      * apply upd_other. intros E. injection E as -> ->.
        destruct Hij as [Hj | Hi]; [congruence |].
        apply Hi, elem_of_cons. auto.
      * destruct Hij as [Hj | Hi]; [left; exact Hj | right].
        intros Hin. apply Hi, elem_of_cons. auto.
Qed.

Lemma fill_table_spec (cts ct2s : list nat) :
  NoDup cts -> (forall ct, ct ∈ cts -> ct < ns) ->
  NoDup ct2s -> (forall ct2, ct2 ∈ ct2s -> ct2 < nmaps) ->
  forall t, shaped t ns nmaps ->
    shaped (fill_table cts ct2s t) ns nmaps
    /\ (forall ct ct2, ct ∈ cts -> ct2 ∈ ct2s ->
          cells (fill_table cts ct2s t) ct ct2 = val ct ct2).
Proof.
  intros Hnd Hlt Hnd2 Hlt2.
  assert (Hgen : forall t, shaped t ns nmaps ->
    shaped (fill_table cts ct2s t) ns nmaps
    /\ (forall ct ct2, ct ∈ cts -> ct2 ∈ ct2s ->
          cells (fill_table cts ct2s t) ct ct2 = val ct ct2)
    /\ (forall i j, j ∉ ct2s ->
          cells (fill_table cts ct2s t) i j = cells t i j)).
  { induction ct2s as [| ct2 ct2s IH]; intros t Ht.
    - split; [exact Ht |]. split; [| reflexivity].
      intros ct c _ Hin. inversion Hin.
    - apply NoDup_cons in Hnd2 as [Hfresh Hnd2].
      assert (Hct2 : ct2 < nmaps) by (apply Hlt2, elem_of_cons; auto).
      assert (Hlt2' : forall c, c ∈ ct2s -> c < nmaps)
        by (intros c Hc; apply Hlt2, elem_of_cons; auto).
      destruct (fill_column_spec ct2 cts Hnd Hlt Hct2 t Ht)
        as (Hshape1 & Hdone1 & Hrest1).
      destruct (IH Hnd2 Hlt2' (fill_column ct2 cts t) Hshape1)
        as (Hshape & Hdone & Hrest).
      unfold fill_table in *. cbn [fold_left].
      split; [exact Hshape |]. split.
      + intros ct c Hct Hc. apply elem_of_cons in Hc as [-> | Hc].
        * rewrite Hrest by exact Hfresh. apply Hdone1, Hct.
        * apply Hdone; assumption.
      + intros i j Hj. apply not_elem_of_cons in Hj as [Hne Hj].
        rewrite Hrest by exact Hj. apply Hrest1. left. exact Hne. }
  intros t Ht. destruct (Hgen t Ht) as (Hshape & Hdone & _). auto.
Qed.

End Fill.

Section BatchLoop.
Context `{Host}.
Variable measure : haperflux_args -> M (float * float * float).
Variables (radius : option float) (rinner router apcor : float).
Variables (targets : list target) (fn : list string).

#[local] Abbreviation upd :=
  (fun ct ct2 t =>
     store_cell radius apcor ct ct2
       (cell_result measure radius rinner router targets fn ct ct2) t).

Lemma phot_cell_outcome (m : loaded_map) (path : string) (tg : target)
    (ct ct2 : nat) (t : tables) :
  targets !! ct = Some tg -> fn !! ct2 = Some path ->
  outcome (read_header path) = Ret m ->
  returns (measure (cell_args radius rinner router m tg)) = true ->
  outcome (phot_cell measure radius rinner router apcor targets m ct2 t ct)
  = Ret (upd ct ct2 t).
Proof.
  intros Htg Hpath Hm Hret. unfold phot_cell, py_getitem, cell_result.
  rewrite Htg, Hpath. rewrite bind_ret_l, outcome_bind.
  unfold value_or at 2. rewrite Hm.
  unfold returns in Hret. unfold value_or.
  destruct (outcome (measure _)) as [r | e]; [reflexivity | discriminate].
Qed.

Lemma phot_map_outcome (r : float) (m : loaded_map) (path : string)
    (ct2 : nat) (t : tables) :
  radius = Some r -> fn !! ct2 = Some path ->
  outcome (read_header path) = Ret m ->
  (forall tg, tg ∈ targets ->
     returns (measure (cell_args radius rinner router m tg)) = true) ->
  outcome (phot_map measure radius rinner router apcor targets
             (length targets) fn t ct2)
  = Ret (fill_column upd ct2 (py_range (length targets)) t).
Proof.
  intros Hr Hpath Hm Hret. unfold phot_map, py_getitem.
  rewrite Hpath, bind_ret_l, outcome_bind, Hm.
  rewrite Hr at 1. rewrite bind_ret_l.
  apply for_each_outcome. intros s ct Hct.
  apply elem_of_seq in Hct.
  destruct (lookup_lt_is_Some_2 targets ct) as [tg Htg]; [lia |].
  apply (phot_cell_outcome m path tg); try assumption.
  apply Hret. eapply list_elem_of_lookup_2, Htg.
Qed.

End BatchLoop.

Section BatchResults.
Context `{Host}.

Lemma aperture_correction_radius (radius : option float)
    (rinner router apcor : float) :
  outcome (aperture_correction radius rinner router) = Ret apcor ->
  exists r, radius = Some r.
Proof.
  destruct radius as [r |]; [eauto | discriminate].
Qed.

Lemma len_genfromtxt_rows {A} (rows : list A) :
  length rows <> 1 -> len_genfromtxt rows = ret (length rows).
Proof.
  destruct rows as [| x [| y rows]]; intros Hlen;
    [reflexivity | contradiction Hlen; reflexivity | reflexivity].
Qed.

Lemma len_genfromtxt_ret {A} (rows : list A) (n : nat) :
  outcome (len_genfromtxt rows) = Ret n -> n = length rows /\ length rows <> 1.
Proof.
  destruct rows as [| x [| y rows]]; cbn; intros E;
    [| discriminate |]; injection E as <-; split; (reflexivity || lia).
Qed.

(** Lines 188-208, when they go through: what is left is the loop over
    the maps on tables of zeros. *)
Lemma healpix_phot_with_loop
    (measure : haperflux_args -> M (float * float * float))
    (inputlist maplist : string) (radius : option float)
    (rinner router apcor : float)
    (targets : list target) (fn : list string) :
  outcome (aperture_correction radius rinner router) = Ret apcor ->
  outcome (genfromtxt_targets inputlist) = Ret targets ->
  length targets <> 1 ->
  outcome (genfromtxt_str maplist) = Ret fn ->
  length fn <> 1 ->
  outcome (healpix_phot_with measure inputlist maplist radius rinner router
             true)
  = outcome (for_each
               (phot_map measure radius rinner router apcor targets
                  (length targets) fn)
               (py_range (length fn))
               (zero_tables (length targets) (length fn))).
Proof.
  intros Hapcor Htargets Hns Hfn Hnmaps. unfold healpix_phot_with.
  rewrite outcome_bind, Hapcor.
  rewrite bind_assoc, outcome_bind, Htargets.
  rewrite !bind_ret_l. rewrite (len_genfromtxt_rows targets) by exact Hns.
  rewrite bind_ret_l, outcome_bind, Hfn.
  rewrite (len_genfromtxt_rows fn) by exact Hnmaps.
  rewrite bind_ret_l. reflexivity.
Qed.

(** A batch that returns went through lines 188-208 and its loop
    returned. *)
Lemma healpix_phot_with_returns
    (measure : haperflux_args -> M (float * float * float))
    (inputlist maplist : string) (radius : option float)
    (rinner router : float) (galactic : bool) (t : tables) :
  outcome (healpix_phot_with measure inputlist maplist radius rinner router
             galactic) = Ret t ->
  exists apcor targets fn,
    outcome (aperture_correction radius rinner router) = Ret apcor
    /\ outcome (genfromtxt_targets inputlist) = Ret targets
    /\ outcome (genfromtxt_str maplist) = Ret fn
    /\ length targets <> 1 /\ length fn <> 1
    /\ outcome (for_each
                  (phot_map measure radius rinner router apcor targets
                     (length targets) fn)
                  (py_range (length fn))
                  (zero_tables (length targets) (length fn))) = Ret t.
Proof.
  unfold healpix_phot_with. rewrite outcome_bind.
  destruct (outcome (aperture_correction radius rinner router)) as [apcor |];
    [| discriminate].
  destruct galactic; [| discriminate].
  rewrite bind_assoc, outcome_bind.
  destruct (outcome (genfromtxt_targets inputlist)) as [targets |];
    [| discriminate].
  rewrite !bind_ret_l, outcome_bind.
  destruct (outcome (len_genfromtxt targets)) as [ns |] eqn:Hns;
    [| discriminate].
  apply len_genfromtxt_ret in Hns as [-> Hns].
  rewrite outcome_bind.
  destruct (outcome (genfromtxt_str maplist)) as [fn |]; [| discriminate].
  rewrite outcome_bind.
  destruct (outcome (len_genfromtxt fn)) as [nmaps |] eqn:Hnmaps;
    [| discriminate].
  apply len_genfromtxt_ret in Hnmaps as [-> Hnmaps].
  intros Hrun. exists apcor, targets, fn. repeat split; assumption.
Qed.

(** The tables [healpix_phot] returns when every step of it returns:
    [len(targets)] rows, [len(fn)] columns, and in every cell what
    [store_cell] makes of the measurement of that cell. *)
Lemma healpix_phot_with_cells
    (measure : haperflux_args -> M (float * float * float))
    (inputlist maplist : string) (radius : option float)
    (rinner router apcor : float)
    (targets : list target) (fn : list string) :
  outcome (aperture_correction radius rinner router) = Ret apcor ->
  outcome (genfromtxt_targets inputlist) = Ret targets ->
  length targets <> 1 ->
  outcome (genfromtxt_str maplist) = Ret fn ->
  length fn <> 1 ->
  (forall path, path ∈ fn ->
     exists m, outcome (read_header path) = Ret m
       /\ forall tg, tg ∈ targets ->
            returns (measure (cell_args radius rinner router m tg)) = true) ->
  exists t,
    outcome (healpix_phot_with measure inputlist maplist radius rinner router
               true) = Ret t
    /\ shaped t (length targets) (length fn)
    /\ forall ct ct2 tg path m r,
         targets !! ct = Some tg -> fn !! ct2 = Some path ->
         outcome (read_header path) = Ret m ->
         outcome (measure (cell_args radius rinner router m tg)) = Ret r ->
         cells t ct ct2 =
         (let '(fd, fd_err, fd_bg) := stored radius apcor r in
          (Some fd, Some fd_err, Some fd_bg)).
Proof.
  intros Hapcor Htargets Hlen Hfn Hlen2 Hcells.
  destruct (aperture_correction_radius _ _ _ _ Hapcor) as [r Hr].
  set (ns := length targets). set (nmaps := length fn).
  set (upd := fun ct ct2 t =>
     store_cell radius apcor ct ct2
       (cell_result measure radius rinner router targets fn ct ct2) t).
  set (t0 := zero_tables ns nmaps).
  exists (fill_table upd (py_range ns) (py_range nmaps) t0).
  assert (Ht0 : shaped t0 ns nmaps)
    by (repeat split; apply shape_np_zeros).
  destruct (fill_table_spec ns nmaps upd
              (fun ct ct2 =>
                 let '(fd, fd_err, fd_bg) :=
                   stored radius apcor
                     (cell_result measure radius rinner router targets fn
                        ct ct2) in
                 (Some fd, Some fd_err, Some fd_bg))
              (fun ct ct2 t => shaped_store_cell radius apcor ns nmaps ct ct2 _ t)
              (fun ct ct2 i j t => cells_store_cell_ne radius apcor ct ct2 i j _ t)
              (fun ct ct2 t => cells_store_cell_eq radius apcor ns nmaps ct ct2 _ t)
              (py_range ns) (py_range nmaps)
              (NoDup_seq 0 ns)
              (fun ct Hct => proj2 (proj1 (elem_of_seq 0 ns ct) Hct))
              (NoDup_seq 0 nmaps)
              (fun ct Hct => proj2 (proj1 (elem_of_seq 0 nmaps ct) Hct))
              t0 Ht0) as [Hshape Hdone].
  split; [| split; [exact Hshape |]].
  - rewrite (healpix_phot_with_loop measure inputlist maplist radius rinner
               router apcor targets fn) by assumption.
    apply for_each_outcome. intros s ct2 Hct2.
    apply elem_of_seq in Hct2.
    destruct (lookup_lt_is_Some_2 fn ct2) as [path Hpath]; [lia |].
    destruct (Hcells path) as (m & Hm & Hret);
      [eapply list_elem_of_lookup_2, Hpath |].
    apply (phot_map_outcome measure radius rinner router apcor targets fn
             r m path); assumption.
  - intros ct ct2 tg path m res Htg Hpath Hm Hmeas.
    rewrite Hdone.
    + unfold cell_result. rewrite Htg, Hpath.
      unfold value_or. rewrite Hm, Hmeas. reflexivity.
    + apply elem_of_seq. apply lookup_lt_Some in Htg. unfold ns. lia.
    + apply elem_of_seq. apply lookup_lt_Some in Hpath. unfold nmaps. lia.
Qed.

End BatchResults.

(* ===================================================================== *)
(** ** Further facts about the arrays and the loops                       *)
(* ===================================================================== *)

Lemma np_where_from_ge (pos p : nat) (mask : list bool) :
  In p (np_where_from pos mask) -> pos <= p.
Proof.
  revert pos. induction mask as [| b mask IH]; intros pos Hin; [destruct Hin |].
  cbn [np_where_from] in Hin. destruct b.
  - destruct Hin as [<- | Hin]; [lia |]. apply IH in Hin. lia.
  - apply IH in Hin. lia.
Qed.

Lemma existsb_eqb_below (pos : nat) (obj : list nat) :
  (forall p, In p obj -> pos < p) -> existsb (Nat.eqb pos) obj = false.
Proof.
  intros Hlt. induction obj as [| q obj IH]; [reflexivity |].
  cbn [existsb]. rewrite IH by (intros p Hp; apply Hlt; right; exact Hp).
  assert (pos < q) by (apply Hlt; left; reflexivity).
  destruct (Nat.eqb_spec pos q); [lia | reflexivity].
Qed.

Lemma np_delete_from_skip {A} (pos q : nat) (arr : list A) (obj : list nat) :
  q < pos -> np_delete_from pos arr (q :: obj) = np_delete_from pos arr obj.
Proof.
  revert pos. induction arr as [| x arr IH]; intros pos Hq; [reflexivity |].
  cbn [np_delete_from existsb].
  destruct (Nat.eqb_spec pos q); [lia |]. cbn [orb].
  rewrite IH by lia. reflexivity.
Qed.

(** Deleting the positions at which a mask holds keeps the elements at
    which it does not hold. *)
Lemma np_delete_where_from {A} (pos : nat) (arr : list A) (mask : list bool) :
  length mask = length arr ->
  np_delete_from pos arr (np_where_from pos mask) =
  map fst (List.filter (fun xm => negb (snd xm)) (combine arr mask)).
Proof.
  revert pos mask. induction arr as [| x arr IH]; intros pos mask Hlen.
  - reflexivity.
  - destruct mask as [| b mask]; [discriminate |].
    injection Hlen as Hlen.
    cbn [np_where_from np_delete_from combine List.filter snd].
    destruct b; cbn [negb].
    + cbn [existsb]. rewrite Nat.eqb_refl. cbn [orb].
      rewrite np_delete_from_skip by lia. apply IH, Hlen.
    + rewrite existsb_eqb_below
        by (intros p Hp; apply np_where_from_ge in Hp; lia).
      cbn [map fst]. f_equal. apply IH, Hlen.
Qed.

Lemma np_take_length {A} (a : list A) (idx : list nat) (vs : list A) :
  outcome (np_take a idx) = Ret vs -> length vs = length idx.
Proof.
  revert vs. induction idx as [| i idx IH]; intros vs Hvs.
  - injection Hvs as <-. reflexivity.
  - cbn [np_take] in Hvs. destruct (a !! i) as [v |]; [| discriminate].
    rewrite outcome_bind in Hvs.
    destruct (outcome (np_take a idx)) as [vs' | e]; [| discriminate].
    injection Hvs as <-. cbn [length]. f_equal. apply IH. reflexivity.
Qed.

(** X2, lines 324-335, for a map of dtype float64: masking a disc keeps,
    in their order, the pixels of the disc whose map value is not
    [hp.UNSEEN]; a pixel outside the map is an [IndexError]. *)
Theorem remove_unseen_keeps_seen (hmap : list float) (pix : list nat) :
  remove_unseen hmap pix =
  (vals <- np_take hmap pix ;;
   ret (map fst (List.filter
                   (fun pv => negb (PrimFloat.eqb (snd pv) UNSEEN))
                   (combine pix vals)))).
Proof.
  unfold remove_unseen.
  destruct (np_take hmap pix) as [out [vals | e]] eqn:Htake; [| reflexivity].
  assert (Hlen : length vals = length pix)
    by (apply (np_take_length hmap); rewrite Htake; reflexivity).
  cbn [bind]. unfold ret, np_delete, np_where.
  rewrite np_delete_where_from by (rewrite length_map; exact Hlen).
  do 3 f_equal.
  clear Htake. revert vals Hlen.
  induction pix as [| p pix IH]; intros [| v vals] Hlen;
    try discriminate; [reflexivity |].
  cbn [map combine List.filter snd].
  destruct (PrimFloat.eqb v UNSEEN); cbn [negb map fst];
    rewrite IH by (injection Hlen as Hlen; exact Hlen); reflexivity.
Qed.

(** Line 351: [np.delete(outerpix2, outerpix1)] keeps the entries of
    [outerpix2] whose POSITION in [outerpix2] is not a number listed in
    [outerpix1]. *)
Theorem np_delete_by_position {A} (arr : list A) (obj : list nat) :
  np_delete arr obj =
  map snd (List.filter (fun px => negb (existsb (Nat.eqb (fst px)) obj))
             (combine (seq 0 (length arr)) arr)).
Proof.
  unfold np_delete. generalize 0 as pos.
  induction arr as [| x arr IH]; intros pos; [reflexivity |].
  cbn [np_delete_from length seq combine List.filter fst].
  destruct (existsb (Nat.eqb pos) obj); cbn [negb map snd];
    rewrite IH; reflexivity.
Qed.

Section MoreFacts.
Context `{Host}.

(** X5, line 174: the 'average' branch reads [ninnerpix], which is a local
    variable of [haperflux], not of [convertToJy]. *)
Theorem convertToJy_average_NameError (thisfreq : float)
    (npix : option number) (pix_area : float) :
  outcome (convertToJy "average" thisfreq npix (Some pix_area))
  = Raise (NameError "ninnerpix").
Proof.
  unfold convertToJy. rewrite !outcome_bind.
  destruct npix; reflexivity.
Qed.

(** An invariant of the tables that every returning step keeps is kept by
    a returning loop. *)
Lemma for_each_invariant {S X} (P : S -> Prop) (body : S -> X -> M S)
    (xs : list X) :
  (forall s x s', P s -> outcome (body s x) = Ret s' -> P s') ->
  forall s s', P s -> outcome (for_each body xs s) = Ret s' -> P s'.
Proof.
  intros Hbody. induction xs as [| x xs IH]; intros s s' Hs Hrun.
  - injection Hrun as <-. exact Hs.
  - cbn [for_each] in Hrun. rewrite outcome_bind in Hrun.
    destruct (outcome (body s x)) as [s1 |] eqn:Hstep; [| discriminate].
    eapply IH; [| exact Hrun]. eapply Hbody; eauto.
Qed.

(** X6, whatever measures the cells: when [healpix_phot] returns, the two
    readers returned and the three tables have one row for each target and
    one column for each map. *)
Theorem healpix_phot_returns_dense
    (measure : haperflux_args -> M (float * float * float))
    (inputlist maplist : string) (radius : option float)
    (rinner router : float) (galactic : bool) (t : tables) :
  outcome (healpix_phot_with measure inputlist maplist radius rinner router
             galactic) = Ret t ->
  exists targets fn,
    outcome (genfromtxt_targets inputlist) = Ret targets
    /\ outcome (genfromtxt_str maplist) = Ret fn
    /\ shaped t (length targets) (length fn).
Proof.
  intros Hrun.
  destruct (healpix_phot_with_returns measure inputlist maplist radius rinner
              router galactic t Hrun)
    as (apcor & targets & fn & _ & Htargets & Hfn & _ & _ & Hloop).
  exists targets, fn. split; [exact Htargets |].
  split; [exact Hfn |].
  eapply (for_each_invariant
            (fun t => shaped t (length targets) (length fn)));
    [| | exact Hloop].
  - intros s ct2 s' Hs. unfold phot_map. rewrite outcome_bind.
    destruct (outcome (py_getitem fn ct2)); [| discriminate].
    rewrite outcome_bind.
    destruct (outcome (read_header _)) as [m |]; [| discriminate].
    rewrite outcome_bind.
    destruct (outcome (match radius with None => _ | Some _ => _ end));
      [| discriminate].
    intros Hcol.
    eapply (for_each_invariant
              (fun t => shaped t (length targets) (length fn)));
      [| exact Hs | exact Hcol].
    intros s1 ct s1' Hs1. unfold phot_cell. rewrite outcome_bind.
    destruct (outcome (py_getitem targets ct)); [| discriminate].
    rewrite outcome_bind.
    destruct (outcome (measure _)) as [r |]; [| discriminate].
    intros E. injection E as <-. apply shaped_store_cell, Hs1.
  - repeat split; apply shape_np_zeros.
Qed.

End MoreFacts.

(** The batch of two targets and two maps measured by [Demo.nan_on_hole]
    returns, so its tables are 2 by 2. *)
Lemma healpix_phot_returns_dense_witness :
  exists t,
    outcome (@healpix_phot_with Demo.plain Demo.nan_on_hole
               "targets.csv" "maps.txt" (Some 600%float) 1800%float 2700%float
               true) = Ret t
    /\ shaped t 2 2.
Proof.
  eexists. split; [vm_compute; reflexivity |].
  destruct (@healpix_phot_returns_dense Demo.plain Demo.nan_on_hole
              "targets.csv" "maps.txt" (Some 600%float) 1800%float 2700%float
              true _ ltac:(vm_compute; reflexivity))
    as (targets & fn & Htargets & Hfn & Hshape).
  injection Htargets as <-. injection Hfn as <-. exact Hshape.
Defined.

Section AnnulusFacts.
Context `{Host}.

(** X3, lines 345-353, for every host and every argument: when the three
    discs are found, the annulus is the list of the entries of the masked
    outer disc 2 whose POSITION in that list is not a pixel number of the
    masked outer disc 1, and [nbgpix] is its length. *)
Theorem haperflux_annulus_positions (a : haperflux_args) (ap : apertures) :
  outcome (haperflux_apertures a) = Ret ap ->
  bgpix ap =
    map snd (List.filter
               (fun px => negb (existsb (Nat.eqb (fst px)) (outerpix1 ap)))
               (combine (seq 0 (length (outerpix2 ap))) (outerpix2 ap)))
  /\ nbgpix ap = length (bgpix ap).
Proof.
  unfold haperflux_apertures. intros Hrun.
  repeat (rewrite outcome_bind in Hrun;
          match type of Hrun with
          | match outcome ?m with _ => _ end = _ =>
              destruct (outcome m); [| discriminate]
          end).
  injection Hrun as <-. cbn [bgpix nbgpix outerpix1 outerpix2].
  split; [apply np_delete_by_position | reflexivity].
Qed.

End AnnulusFacts.

(** The discs [0; 4; 5] and [0; 1; 3; 4; 5; 6; 11] of the map of ones. *)
Lemma haperflux_annulus_positions_witness :
  exists ap,
    outcome (@haperflux_apertures Demo.plain (Demo.measure_args Demo.flat_map))
      = Ret ap
    /\ bgpix ap =
         map snd (List.filter
                    (fun px => negb (existsb (Nat.eqb (fst px)) (outerpix1 ap)))
                    (combine (seq 0 (length (outerpix2 ap))) (outerpix2 ap)))
    /\ nbgpix ap = length (bgpix ap).
Proof.
  eexists. split; [vm_compute; reflexivity |].
  apply (@haperflux_annulus_positions Demo.plain
           (Demo.measure_args Demo.flat_map)).
  vm_compute. reflexivity.
Defined.

Section ApertureFacts.
Context `{Host}.

(** X7, lines 337-343: [haperflux] goes on to the annulus only with at least
    one good pixel in each of the three discs. *)
Theorem haperflux_apertures_nonempty (a : haperflux_args) (ap : apertures) :
  outcome (haperflux_apertures a) = Ret ap ->
  ninnerpix ap <> 0 /\ outerpix1 ap <> [] /\ outerpix2 ap <> [].
Proof.
  unfold haperflux_apertures. intros Hrun.
  repeat (rewrite outcome_bind in Hrun;
          match type of Hrun with
          | match outcome (if orb (orb ?c0 ?c1) ?c2 then _ else _)
              with _ => _ end = _ =>
              destruct (orb (orb c0 c1) c2) eqn:Hzero; [discriminate |];
              cbn [outcome ret snd] in Hrun
          | match outcome ?m with _ => _ end = _ =>
              destruct (outcome m); [| discriminate]
          end).
  injection Hrun as <-. cbn [ninnerpix outerpix1 outerpix2].
  apply orb_false_elim in Hzero as [Hzero Hzero2].
  apply orb_false_elim in Hzero as [Hzero0 Hzero1].
  apply Nat.eqb_neq in Hzero0, Hzero1, Hzero2.
  split; [exact Hzero0 |].
  split; intros E; rewrite E in *; [apply Hzero1 | apply Hzero2]; reflexivity.
Qed.

End ApertureFacts.

(** The three discs of the map of ones hold 1, 3 and 7 good pixels. *)
Lemma haperflux_apertures_nonempty_witness :
  exists ap,
    outcome (@haperflux_apertures Demo.plain (Demo.measure_args Demo.flat_map))
      = Ret ap
    /\ ninnerpix ap <> 0 /\ outerpix1 ap <> [] /\ outerpix2 ap <> [].
Proof.
  eexists. split; [vm_compute; reflexivity |].
  apply (@haperflux_apertures_nonempty Demo.plain
           (Demo.measure_args Demo.flat_map)).
  vm_compute. reflexivity.
Defined.

(* ===================================================================== *)
(** ** Edge cases of the three entry points                               *)
(* ===================================================================== *)

Section ConversionEdges.
Context `{Host}.

(** X8, lines 140-145: called with neither a pixel count nor a solid
    angle, [convertToJy] raises [TypeError] at [4.*np.pi / npix] for every
    unit label, the unsupported ones included, and prints nothing. *)
Theorem convertToJy_no_solid_angle_TypeError (units : string)
    (thisfreq : float) :
  convertToJy units thisfreq None None = ([], Raise TypeError).
Proof.
  unfold convertToJy, resolve_pix_area.
  rewrite bind_ret_l, bind_raise. reflexivity.
Qed.

(** X25, line 145: called with a pixel count that is a Python number
    equal to zero and without a solid angle, [convertToJy] raises
    [ZeroDivisionError] at [4.*np.pi / npix] for every unit label, and
    prints nothing. *)
Theorem convertToJy_zero_npix_ZeroDivisionError (units : string)
    (thisfreq n : float) :
  PrimFloat.eqb n 0 = true ->
  convertToJy units thisfreq (Some (PyNumber n)) None
  = ([], Raise ZeroDivisionError).
Proof.
  intros Hzero. unfold convertToJy, resolve_pix_area, div_by, py_div.
  rewrite Hzero, bind_ret_l, bind_raise. reflexivity.
Qed.

(** X9, lines 149-174: two labels of one branch are interchangeable: the
    calls print the same lines and end the same way. *)
Theorem convertToJy_aliases_agree (family : list string) (u1 u2 : string)
    (thisfreq : float) (npix : option number) (pix_area : option float) :
  In family alias_families -> In u1 family -> In u2 family ->
  convertToJy u1 thisfreq npix pix_area = convertToJy u2 thisfreq npix pix_area.
Proof.
  intros Hfam H1 H2. unfold alias_families in Hfam.
  repeat (destruct Hfam as [<- | Hfam]);
    try (destruct Hfam);
    cbn [In] in H1, H2;
    repeat (destruct H1 as [<- | H1]); try (destruct H1);
    repeat (destruct H2 as [<- | H2]); try (destruct H2);
    reflexivity.
Qed.

End ConversionEdges.

(** The label 'K_RJ' with a pixel count of 0. *)
Lemma convertToJy_zero_npix_ZeroDivisionError_witness :
  @convertToJy Demo.plain "K_RJ" 100 (Some (PyNumber 0)) None
  = ([], Raise ZeroDivisionError).
Proof.
  apply (@convertToJy_zero_npix_ZeroDivisionError Demo.plain).
  reflexivity.
Defined.

(** The labels 'K' and 'KRJ' at 100 GHz on 48 pixels. *)
Lemma convertToJy_aliases_agree_witness :
  @convertToJy Demo.plain "K" 100 (Some (PyNumber 48)) None
  = @convertToJy Demo.plain "KRJ" 100 (Some (PyNumber 48)) None.
Proof.
  apply (@convertToJy_aliases_agree Demo.plain ["K"; "K_RJ"; "KRJ"]).
  - left. reflexivity.
  - left. reflexivity.
  - right. right. left. reflexivity.
Defined.

Section PhotometryEdges.
Context `{Host}.

Lemma haperflux_past_usage (a : haperflux_args) :
  length sys_argv <= 8 ->
  haperflux a =
  (ap <- haperflux_apertures a ;;
   covnertToJy <- load_global "covnertToJy" convertToJy ;;
   factor <- covnertToJy (units a) (thisfreq ap)
               (Some (NpFloat64 (npix ap))) None ;;
   haperflux_flux a ap factor).
Proof.
  intros Hargv. unfold haperflux.
  assert (E : (8 <? length sys_argv)%nat = false) by (apply Nat.ltb_ge; lia).
  rewrite E. rewrite bind_ret_l. reflexivity.
Qed.

(** X10, lines 278-294: an empty array is neither a file name
    ([np.size] 1) nor a map ([np.size] above 1), so [hmap] is never
    assigned and [len(hmap)] raises [UnboundLocalError]. *)
Theorem haperflux_empty_array_unbound (a : haperflux_args) (r : float) :
  length sys_argv <= 8 ->
  aper_inner_radius a = Some r ->
  inmap a = MapArray [] ->
  haperflux a = ([], Raise (UnboundLocalError "hmap")).
Proof.
  intros Hargv Hr Hmap. rewrite haperflux_past_usage by exact Hargv.
  unfold haperflux_apertures. rewrite Hr, Hmap. reflexivity.
Qed.

(** X11, lines 262-267: [haperflux] converts its radii with [float]
    before it looks at the map, so an inner radius of [None], which is
    what [healpix_phot] passes when it has no radius, is a [TypeError]. *)
Theorem haperflux_no_inner_radius_TypeError (a : haperflux_args) :
  length sys_argv <= 8 ->
  aper_inner_radius a = None ->
  haperflux a = ([], Raise TypeError).
Proof.
  intros Hargv Hr. rewrite haperflux_past_usage by exact Hargv.
  unfold haperflux_apertures. rewrite Hr. reflexivity.
Qed.

End PhotometryEdges.

(** The measurement of [Demo.measure_args] on an array without a pixel. *)
Lemma haperflux_empty_array_unbound_witness :
  @haperflux Demo.plain (Demo.measure_args [])
  = ([], Raise (UnboundLocalError "hmap")).
Proof.
  apply (@haperflux_empty_array_unbound Demo.plain (Demo.measure_args [])
           600%float).
  - simpl. lia.
  - reflexivity.
  - reflexivity.
Defined.

(** The call [healpix_phot] builds for the map of ones when it has no
    radius. *)
Lemma haperflux_no_inner_radius_TypeError_witness :
  @haperflux Demo.plain
    (cell_args None 1800%float 2700%float
       {| xtmp_data := Demo.flat_map; map_units := "Jy/pixel"; idx := 3;
          currfreq := 100 |}
       (Demo.pixel0 "a"))
  = ([], Raise TypeError).
Proof.
  apply (@haperflux_no_inner_radius_TypeError Demo.plain).
  - simpl. lia.
  - reflexivity.
Defined.

Section BatchEdges.
Context `{Host}.
Variable measure : haperflux_args -> M (float * float * float).

(** X12, lines 193-198: with [galactic] false the catalogue is never
    read and [targets] is never assigned: once the aperture correction is
    computed, [len(targets['glat'])] raises [UnboundLocalError]. *)
Theorem healpix_phot_not_galactic_unbound (inputlist maplist : string)
    (radius : option float) (rinner router apcor : float) :
  outcome (aperture_correction radius rinner router) = Ret apcor ->
  outcome (healpix_phot_with measure inputlist maplist radius rinner router
             false)
  = Raise (UnboundLocalError "targets").
Proof.
  intros Hapcor. unfold healpix_phot_with.
  rewrite outcome_bind, Hapcor. rewrite bind_ret_l, bind_raise. reflexivity.
Qed.

(** X13, lines 188-190: a radius of zero (of either sign) is a
    [ZeroDivisionError] at [rinner/radius], before anything is read. *)
Theorem healpix_phot_zero_radius (inputlist maplist : string)
    (r rinner router : float) (galactic : bool) :
  PrimFloat.eqb r 0 = true ->
  healpix_phot_with measure inputlist maplist (Some r) rinner router galactic
  = ([], Raise ZeroDivisionError).
Proof.
  intros Hr. unfold healpix_phot_with, aperture_correction, py_div.
  cbn [py_float]. rewrite bind_ret_l, Hr. rewrite !bind_raise. reflexivity.
Qed.

(** X14, lines 198-211 and 243: with a catalogue of no row or of several
    rows and an empty list of maps, no map is read and nothing is
    measured; the three tables are returned with one row for each target
    and no column.  (A catalogue of a single row is a 0-d array, and
    [len] of it raises.) *)
Theorem healpix_phot_no_maps (inputlist maplist : string)
    (radius : option float) (rinner router apcor : float)
    (targets : list target) :
  outcome (aperture_correction radius rinner router) = Ret apcor ->
  outcome (genfromtxt_targets inputlist) = Ret targets ->
  length targets <> 1 ->
  outcome (genfromtxt_str maplist) = Ret [] ->
  outcome (healpix_phot_with measure inputlist maplist radius rinner router
             true)
  = Ret (zero_tables (length targets) 0).
Proof.
  intros Hapcor Htargets Hlen Hfn.
  rewrite (healpix_phot_with_loop measure inputlist maplist radius rinner
             router apcor targets []); try assumption; [reflexivity |].
  discriminate.
Qed.

End BatchEdges.

(** The batch of the examples asked for equatorial coordinates. *)
Lemma healpix_phot_not_galactic_unbound_witness :
  outcome (@healpix_phot_with Demo.plain Demo.nan_on_hole
             "targets.csv" "maps.txt" (Some 600%float) 1800%float 2700%float
             false)
  = Raise (UnboundLocalError "targets").
Proof.
  apply (@healpix_phot_not_galactic_unbound Demo.plain Demo.nan_on_hole
           "targets.csv" "maps.txt" (Some 600%float) 1800%float 2700%float
           1.0666666666832234%float).
  vm_compute. reflexivity.
Defined.

(** The batch of the examples with a radius of 0. *)
Lemma healpix_phot_zero_radius_witness :
  @healpix_phot_with Demo.plain Demo.nan_on_hole
    "targets.csv" "maps.txt" (Some 0%float) 1800%float 2700%float true
  = ([], Raise ZeroDivisionError).
Proof.
  apply (@healpix_phot_zero_radius Demo.plain Demo.nan_on_hole).
  reflexivity.
Defined.

(** The two targets of the examples and a list of maps without a line. *)
Lemma healpix_phot_no_maps_witness :
  outcome (@healpix_phot_with Fixtures.no_maps (@haperflux Fixtures.no_maps)
             "targets.csv" "maps.txt" (Some 600%float) 1800%float 2700%float
             true)
  = Ret (zero_tables 2 0).
Proof.
  apply (@healpix_phot_no_maps Fixtures.no_maps (@haperflux Fixtures.no_maps)
           "targets.csv" "maps.txt" (Some 600%float) 1800%float 2700%float
           1.0666666666832234%float [Demo.pixel0 "a"; Demo.pixel0 "b"]).
  - vm_compute. reflexivity.
  - reflexivity.
  - discriminate.
  - reflexivity.
Defined.

(* ===================================================================== *)
(** ** The headers of the maps and the first failure of a batch           *)
(* ===================================================================== *)

Lemma list_index_from_found (pos i : nat) (x : string) (l : list string) :
  outcome (list_index_from pos x l) = Ret i ->
  pos <= i /\ l !! (i - pos) = Some x.
Proof.
  revert pos. induction l as [| y l IH]; intros pos Hfound; [discriminate |].
  cbn [list_index_from] in Hfound. destruct (String.eqb_spec y x) as [-> | Hne].
  - injection Hfound as <-. rewrite Nat.sub_diag. split; [lia | reflexivity].
  - apply IH in Hfound as [Hle Hlook]. split; [lia |].
    replace (i - pos) with (S (i - S pos)) by lia. exact Hlook.
Qed.

Lemma list_index_from_missing (pos : nat) (x : string) (l : list string) :
  ~ In x l -> list_index_from pos x l = ([], Raise ValueError).
Proof.
  revert pos. induction l as [| y l IH]; intros pos Hmiss; [reflexivity |].
  cbn [list_index_from]. destruct (String.eqb_spec y x) as [-> | Hne].
  - exfalso. apply Hmiss. left. reflexivity.
  - apply IH. intros Hin. apply Hmiss. right. exact Hin.
Qed.

Lemma seq_split_at (ct ns : nat) :
  ct < ns -> seq 0 ns = seq 0 ct ++ ct :: seq (S ct) (ns - S ct).
Proof.
  intros Hct. replace ns with (ct + S (ns - S ct)) at 1 by lia.
  rewrite seq_app. reflexivity.
Qed.

(** A loop ends with the exception of its first step that raises. *)
Lemma for_each_raise_at {S X} (body : S -> X -> M S) (step : S -> X -> S)
    (xs ys : list X) (x : X) (e : exn) :
  (forall s x', x' ∈ xs -> outcome (body s x') = Ret (step s x')) ->
  (forall s, outcome (body s x) = Raise e) ->
  forall s, outcome (for_each body (xs ++ x :: ys) s) = Raise e.
Proof.
  intros Hxs Hx. induction xs as [| x' xs IH]; intros s.
  - cbn [app for_each]. rewrite outcome_bind, Hx. reflexivity.
  - cbn [app for_each]. rewrite outcome_bind.
    rewrite Hxs by (apply elem_of_cons; auto).
    apply IH. intros s' x'' Hin. apply Hxs, elem_of_cons. auto.
Qed.

Section Headers.
Context `{Host}.

(** X15, lines 212-220: a map whose header is accepted has a [FREQ]
    card that stands in [freqlist] at the position kept as [idx], and
    [fwhmlist] has an entry at that position: the look-up of the nominal
    beam cannot run off the table. *)
Theorem read_header_known_band (path : string) (m : loaded_map) :
  outcome (read_header path) = Ret m ->
  freqlist !! idx m = Some (py_str_int (currfreq m))
  /\ is_Some (fwhmlist !! idx m)
  /\ exists x, outcome (hp_read_map_h path) = Ret x
       /\ xtmp_data m = map_data x
       /\ card_FREQ x = Some (currfreq m)
       /\ card_TUNIT1 x = Some (map_units m).
Proof.
  unfold read_header. rewrite outcome_bind.
  destruct (outcome (hp_read_map_h path)) as [x |]; [| discriminate].
  destruct (card_FREQ x) as [f |] eqn:Hf; [| discriminate].
  destruct (card_TUNIT1 x) as [u |] eqn:Hu; [| discriminate].
  cbn [py_card]. rewrite !bind_ret_l, outcome_bind.
  destruct (outcome (list_index (py_str_int f) freqlist)) as [i |] eqn:Hidx;
    [| discriminate].
  intros E. injection E as <-. cbn [idx currfreq xtmp_data map_units].
  apply list_index_from_found in Hidx as [_ Hlook].
  rewrite Nat.sub_0_r in Hlook.
  split; [exact Hlook |]. split.
  - apply lookup_lt_is_Some_2. apply lookup_lt_Some in Hlook. exact Hlook.
  - exists x. repeat split; [exact Hf | exact Hu].
Qed.

Lemma read_header_unknown_band (path : string) (x : map_file) (f : Z)
    (u : string) :
  outcome (hp_read_map_h path) = Ret x ->
  card_FREQ x = Some f -> card_TUNIT1 x = Some u ->
  ~ In (py_str_int f) freqlist ->
  outcome (read_header path) = Raise ValueError.
Proof.
  intros Hx Hf Hu Hmiss. unfold read_header.
  rewrite outcome_bind, Hx, Hf, Hu. cbn [py_card].
  rewrite !bind_ret_l, outcome_bind.
  unfold list_index. rewrite list_index_from_missing by exact Hmiss.
  reflexivity.
Qed.

Lemma haperflux_raises (a : haperflux_args) :
  exists e, outcome (haperflux a) = Raise e.
Proof.
  unfold haperflux. rewrite !outcome_bind.
  destruct (outcome (if (8 <? length sys_argv)%nat then _ else _));
    [| eauto].
  destruct (outcome (haperflux_apertures a)); eauto.
Qed.

Section AnyMeasure.
Variable measure : haperflux_args -> M (float * float * float).

(** X16, lines 212-217: with a catalogue of no row or of several rows
    and a list of several maps, a first map whose [FREQ] card is not one
    of the nineteen entries of [freqlist] ends the batch with the
    [ValueError] of [freqlist.index], also when a radius is given and the
    look-up is not needed, and also when the catalogue is empty. *)
Theorem healpix_phot_unknown_band_ValueError (inputlist maplist : string)
    (radius : option float) (rinner router apcor : float)
    (targets : list target) (path : string) (fn : list string)
    (x : map_file) (f : Z) (u : string) :
  outcome (aperture_correction radius rinner router) = Ret apcor ->
  outcome (genfromtxt_targets inputlist) = Ret targets ->
  length targets <> 1 ->
  outcome (genfromtxt_str maplist) = Ret (path :: fn) ->
  fn <> [] ->
  outcome (hp_read_map_h path) = Ret x ->
  card_FREQ x = Some f -> card_TUNIT1 x = Some u ->
  ~ In (py_str_int f) freqlist ->
  outcome (healpix_phot_with measure inputlist maplist radius rinner router
             true)
  = Raise ValueError.
Proof.
  intros Hapcor Htargets Hlen Hfn Hmore Hx Hf Hu Hmiss.
  rewrite (healpix_phot_with_loop measure inputlist maplist radius rinner
             router apcor targets (path :: fn)); try assumption.
  - cbn [length py_range seq for_each]. rewrite outcome_bind.
    unfold phot_map at 1. cbn [py_getitem lookup list_lookup].
    rewrite bind_ret_l, outcome_bind.
    rewrite (read_header_unknown_band path x f u) by assumption.
    reflexivity.
  - destruct fn; [contradiction Hmore; reflexivity | discriminate].
Qed.

(** X17, lines 211-241: with a catalogue and a list of maps of several
    rows each, the batch is ended by the first cell, in the order of the
    loops (map after map, and target after target within a map), whose
    measurement raises: [healpix_phot] raises the exception of that cell
    and returns no table. *)
Theorem healpix_phot_first_failure_aborts (inputlist maplist : string)
    (radius : option float) (rinner router apcor : float)
    (targets : list target) (fn : list string)
    (ct ct2 : nat) (tg : target) (path : string) (m : loaded_map)
    (e : exn) :
  outcome (aperture_correction radius rinner router) = Ret apcor ->
  outcome (genfromtxt_targets inputlist) = Ret targets ->
  length targets <> 1 ->
  outcome (genfromtxt_str maplist) = Ret fn ->
  length fn <> 1 ->
  targets !! ct = Some tg -> fn !! ct2 = Some path ->
  outcome (read_header path) = Ret m ->
  outcome (measure (cell_args radius rinner router m tg)) = Raise e ->
  (forall i tg', i < ct -> targets !! i = Some tg' ->
     returns (measure (cell_args radius rinner router m tg')) = true) ->
  (forall j path', j < ct2 -> fn !! j = Some path' ->
     exists m', outcome (read_header path') = Ret m'
       /\ forall tg', tg' ∈ targets ->
            returns (measure (cell_args radius rinner router m' tg')) = true) ->
  outcome (healpix_phot_with measure inputlist maplist radius rinner router
             true)
  = Raise e.
Proof.
  intros Hapcor Htargets Hlen Hfn Hlen2 Htg Hpath Hm Hraise Hbefore Hmaps.
  destruct (aperture_correction_radius _ _ _ _ Hapcor) as [r Hr].
  rewrite (healpix_phot_with_loop measure inputlist maplist radius rinner
             router apcor targets fn) by assumption.
  unfold py_range.
  rewrite (seq_split_at ct2 (length fn)) by (eapply lookup_lt_Some, Hpath).
  eapply (for_each_raise_at _
            (fun t j =>
               fill_column
                 (fun ct ct2 t =>
                    store_cell radius apcor ct ct2
                      (cell_result measure radius rinner router targets fn
                         ct ct2) t)
                 j (py_range (length targets)) t)).
  - intros s j Hj. apply elem_of_seq in Hj.
    destruct (lookup_lt_is_Some_2 fn j) as [path' Hpath'];
      [apply lookup_lt_Some in Hpath; lia |].
    destruct (Hmaps j path') as (m' & Hm' & Hret); [lia | exact Hpath' |].
    apply (phot_map_outcome measure radius rinner router apcor targets fn
             r m' path'); assumption.
  - intros s. unfold phot_map, py_getitem.
    rewrite Hpath, bind_ret_l, outcome_bind, Hm.
    rewrite Hr at 1. rewrite bind_ret_l.
    unfold py_range.
    rewrite (seq_split_at ct (length targets))
      by (eapply lookup_lt_Some, Htg).
    eapply (for_each_raise_at _
              (fun t i =>
                 store_cell radius apcor i ct2
                   (cell_result measure radius rinner router targets fn
                      i ct2) t)).
    + intros s' i Hi. apply elem_of_seq in Hi.
      destruct (lookup_lt_is_Some_2 targets i) as [tg' Htg'];
        [apply lookup_lt_Some in Htg; lia |].
      apply (phot_cell_outcome measure radius rinner router apcor targets fn
               m path tg'); try assumption.
      apply (Hbefore i); [lia | exact Htg'].
    + intros s'. unfold phot_cell, py_getitem.
      rewrite Htg, bind_ret_l, outcome_bind, Hraise. reflexivity.
Qed.

End AnyMeasure.


(** A batch of the module's own [healpix_phot] that returns had no cell to
    measure, and returns the tables of zeros it started with. *)
Lemma healpix_phot_returns_facts (inputlist maplist : string)
    (radius : option float) (rinner router : float) (galactic : bool)
    (t : tables) :
  outcome (healpix_phot inputlist maplist radius rinner router galactic)
    = Ret t ->
  exists targets fn,
    outcome (genfromtxt_targets inputlist) = Ret targets
    /\ outcome (genfromtxt_str maplist) = Ret fn
    /\ (targets = [] \/ fn = [])
    /\ t = zero_tables (length targets) (length fn).
Proof.
  unfold healpix_phot. intros Hrun.
  destruct (healpix_phot_with_returns haperflux inputlist maplist radius
              rinner router galactic t Hrun)
    as (apcor & targets & fn & _ & Htargets & Hfn & _ & _ & Hloop).
  exists targets, fn. split; [exact Htargets |]. split; [exact Hfn |].
  destruct fn as [| path fn].
  { split; [right; reflexivity |]. injection Hloop as <-. reflexivity. }
  destruct targets as [| tg targets].
  { split; [left; reflexivity |].
    eapply (for_each_invariant
              (fun s => s = zero_tables 0 (length (path :: fn))));
      [| reflexivity | exact Hloop].
    intros s ct2 s' -> . unfold phot_map. rewrite outcome_bind.
    destruct (outcome (py_getitem (path :: fn) ct2)); [| discriminate].
    rewrite outcome_bind.
    destruct (outcome (read_header _)) as [m |]; [| discriminate].
    rewrite outcome_bind.
    destruct (outcome (match radius with None => _ | Some _ => _ end));
      [| discriminate].
    intros E. injection E as <-. reflexivity. }
  exfalso. revert Hloop.
  cbn [length py_range seq for_each]. rewrite outcome_bind.
  unfold phot_map at 1. cbn [py_getitem lookup list_lookup].
  rewrite bind_ret_l, outcome_bind.
  destruct (outcome (read_header path)) as [m |]; [| discriminate].
  rewrite outcome_bind.
  destruct (outcome (match radius with None => _ | Some _ => _ end));
    [| discriminate].
  cbn [py_range seq for_each]. rewrite outcome_bind.
  unfold phot_cell at 1. cbn [py_getitem lookup list_lookup].
  rewrite bind_ret_l, outcome_bind.
  destruct (haperflux_raises (cell_args radius rinner router m tg))
    as [e He].
  rewrite He. discriminate.
Qed.

(** X18, lines 211-243 with line 355: [healpix_phot] as the module has
    it returns only when the catalogue or the list of maps is empty, for
    with a target and a map the first measurement already raises. *)
Theorem healpix_phot_returns_only_empty (inputlist maplist : string)
    (radius : option float) (rinner router : float) (galactic : bool)
    (t : tables) :
  outcome (healpix_phot inputlist maplist radius rinner router galactic)
    = Ret t ->
  exists targets fn,
    outcome (genfromtxt_targets inputlist) = Ret targets
    /\ outcome (genfromtxt_str maplist) = Ret fn
    /\ (targets = [] \/ fn = []).
Proof.
  intros Hrun.
  destruct (healpix_phot_returns_facts inputlist maplist radius rinner router
              galactic t Hrun)
    as (targets & fn & Htargets & Hfn & Hempty & _).
  exists targets, fn. auto.
Qed.

End Headers.


(** The map of ones of the examples, whose [FREQ] card is 100. *)
Lemma read_header_known_band_witness :
  freqlist !! 3 = Some "100"
  /\ is_Some (fwhmlist !! 3)
  /\ exists x, outcome (@hp_read_map_h Demo.plain "flat.fits") = Ret x
       /\ Demo.flat_map = map_data x
       /\ card_FREQ x = Some 100%Z
       /\ card_TUNIT1 x = Some "Jy/pixel".
Proof.
  apply (@read_header_known_band Demo.plain "flat.fits"
           {| xtmp_data := Demo.flat_map; map_units := "Jy/pixel"; idx := 3;
              currfreq := 100 |}).
  vm_compute. reflexivity.
Defined.

(** The batch of the examples on maps whose [FREQ] card is 101. *)
Lemma healpix_phot_unknown_band_ValueError_witness :
  outcome (@healpix_phot_with Fixtures.odd_band
             (@haperflux Fixtures.odd_band)
             "targets.csv" "maps.txt" (Some 600%float) 1800%float 2700%float
             true)
  = Raise ValueError.
Proof.
  apply (@healpix_phot_unknown_band_ValueError Fixtures.odd_band
           (@haperflux Fixtures.odd_band)
           "targets.csv" "maps.txt" (Some 600%float)
           1800%float 2700%float 1.0666666666832234%float
           [Demo.pixel0 "a"; Demo.pixel0 "b"] "hole.fits" ["flat.fits"]
           {| map_data := Demo.flat_map; card_FREQ := Some 101%Z;
              card_TUNIT1 := Some "Jy/pixel" |} 101%Z "Jy/pixel").
  - vm_compute. reflexivity.
  - reflexivity.
  - discriminate.
  - reflexivity.
  - discriminate.
  - reflexivity.
  - reflexivity.
  - reflexivity.
  - vm_compute. intros Hin.
    repeat (destruct Hin as [Hin | Hin]; [discriminate |]). exact Hin.
Defined.

(** The batch of the examples measured by the module's own [haperflux]:
    the first cell, on the map whose pixel 0 is unseen, raises
    [SystemExit]. *)
Lemma healpix_phot_first_failure_aborts_witness :
  outcome (@healpix_phot_with Demo.plain (@haperflux Demo.plain)
             "targets.csv" "maps.txt" (Some 600%float) 1800%float 2700%float
             true)
  = Raise SystemExit.
Proof.
  apply (@healpix_phot_first_failure_aborts Demo.plain (@haperflux Demo.plain)
           "targets.csv" "maps.txt" (Some 600%float) 1800%float 2700%float
           1.0666666666832234%float
           [Demo.pixel0 "a"; Demo.pixel0 "b"] ["hole.fits"; "flat.fits"]
           0 0 (Demo.pixel0 "a") "hole.fits"
           {| xtmp_data := Demo.hole_map; map_units := "Jy/pixel"; idx := 3;
              currfreq := 100 |}).
  - vm_compute. reflexivity.
  - reflexivity.
  - discriminate.
  - reflexivity.
  - discriminate.
  - reflexivity.
  - reflexivity.
  - vm_compute. reflexivity.
  - vm_compute. reflexivity.
  - intros i tg' Hi. lia.
  - intros j path' Hj. lia.
Defined.

(** The module's own batch on a list of maps without a line. *)
Lemma healpix_phot_returns_only_empty_witness :
  exists targets fn,
    outcome (@genfromtxt_targets Fixtures.no_maps "targets.csv") = Ret targets
    /\ outcome (@genfromtxt_str Fixtures.no_maps "maps.txt") = Ret fn
    /\ (targets = [] \/ fn = []).
Proof.
  apply (@healpix_phot_returns_only_empty Fixtures.no_maps
           "targets.csv" "maps.txt" (Some 600%float) 1800%float 2700%float
           true (zero_tables 2 0)).
  vm_compute. reflexivity.
Defined.

(* ===================================================================== *)
(** ** What the discs and the annulus of haperflux hold                   *)
(* ===================================================================== *)

Lemma np_take_values {A} (a : list A) (idx : list nat) (vs : list A) :
  outcome (np_take a idx) = Ret vs ->
  Forall2 (fun i v => a !! i = Some v) idx vs.
Proof.
  revert vs. induction idx as [| i idx IH]; intros vs Hvs.
  - injection Hvs as <-. constructor.
  - cbn [np_take] in Hvs. destruct (a !! i) as [v |] eqn:Hv; [| discriminate].
    rewrite outcome_bind in Hvs.
    destruct (outcome (np_take a idx)) as [vs' |]; [| discriminate].
    injection Hvs as <-. constructor; [exact Hv | apply IH; reflexivity].
Qed.

Lemma np_take_in_range {A} (a : list A) (idx : list nat) :
  Forall (fun i => is_Some (a !! i)) idx ->
  exists vs, outcome (np_take a idx) = Ret vs.
Proof.
  induction 1 as [| i idx [v Hv] _ [vs Hvs]]; [eexists; reflexivity |].
  exists (v :: vs). cbn [np_take]. rewrite Hv, outcome_bind, Hvs. reflexivity.
Qed.

Lemma np_delete_from_Forall {A} (P : A -> Prop) (pos : nat) (arr : list A)
    (obj : list nat) :
  Forall P arr -> Forall P (np_delete_from pos arr obj).
Proof.
  intros Harr. revert pos. induction Harr as [| x arr Hx _ IH]; intros pos.
  - constructor.
  - cbn [np_delete_from]. destruct (existsb (Nat.eqb pos) obj);
      [apply IH | constructor; [exact Hx | apply IH]].
Qed.

Lemma np_delete_from_length_le {A} (pos : nat) (arr : list A)
    (obj : list nat) :
  length (np_delete_from pos arr obj) <= length arr.
Proof.
  revert pos. induction arr as [| x arr IH]; intros pos; [reflexivity |].
  cbn [np_delete_from]. specialize (IH (S pos)).
  destruct (existsb (Nat.eqb pos) obj); cbn [length]; lia.
Qed.

(** One more number in [obj] removes at most one more element. *)
Lemma np_delete_from_one_more {A} (pos q : nat) (arr : list A)
    (obj : list nat) :
  length (np_delete_from pos arr obj)
  <= S (length (np_delete_from pos arr (q :: obj))).
Proof.
  revert pos. induction arr as [| x arr IH]; intros pos; [cbn; lia |].
  cbn [np_delete_from existsb]. specialize (IH (S pos)).
  destruct (existsb (Nat.eqb pos) obj).
  - rewrite orb_true_r. exact IH.
  - rewrite orb_false_r. destruct (Nat.eqb_spec pos q) as [<- | Hne].
    + rewrite np_delete_from_skip by lia. cbn [length]. lia.
    + cbn [length]. lia.
Qed.

Lemma np_delete_from_nil {A} (pos : nat) (arr : list A) :
  np_delete_from pos arr [] = arr.
Proof.
  revert pos. induction arr as [| x arr IH]; intros pos; [reflexivity |].
  cbn [np_delete_from existsb]. rewrite IH. reflexivity.
Qed.

Lemma np_delete_length_ge {A} (arr : list A) (obj : list nat) :
  length arr <= length (np_delete arr obj) + length obj.
Proof.
  unfold np_delete. induction obj as [| q obj IH].
  - rewrite np_delete_from_nil. cbn [length]. lia.
  - pose proof (np_delete_from_one_more 0 q arr obj). cbn [length]. lia.
Qed.

Lemma kept_are_good (hmap : list float) (pix : list nat) (vals : list float) :
  Forall2 (fun p v => hmap !! p = Some v) pix vals ->
  Forall (good_pixel hmap)
    (map fst (List.filter (fun xm => negb (snd xm))
                (combine pix (map (fun v => PrimFloat.eqb v UNSEEN) vals)))).
Proof.
  induction 1 as [| p v pix vals Hpv _ IH]; [constructor |].
  cbn [map combine List.filter snd].
  destruct (PrimFloat.eqb v UNSEEN) eqn:Hv; cbn [negb map fst];
    [exact IH |].
  constructor; [exists v; split; assumption | exact IH].
Qed.

Lemma remove_unseen_good (hmap : list float) (pix kept : list nat) :
  outcome (remove_unseen hmap pix) = Ret kept ->
  Forall (good_pixel hmap) kept.
Proof.
  unfold remove_unseen. rewrite outcome_bind.
  destruct (outcome (np_take hmap pix)) as [vals |] eqn:Htake;
    [| discriminate].
  intros E. injection E as <-. unfold np_delete, np_where.
  rewrite np_delete_where_from
    by (rewrite length_map; apply (np_take_length hmap), Htake).
  apply kept_are_good, np_take_values, Htake.
Qed.

Lemma good_pixels_in_range (hmap : list float) (pix : list nat) :
  Forall (good_pixel hmap) pix -> Forall (fun p => is_Some (hmap !! p)) pix.
Proof.
  intros Hgood. eapply Forall_impl; [exact Hgood |].
  intros p (v & Hv & _). exists v. exact Hv.
Qed.

Section ApertureInvariants.
Context `{Host}.

(** What holds of the local variables when lines 260-353 are through. *)
Lemma haperflux_apertures_facts (a : haperflux_args) (ap : apertures) :
  outcome (haperflux_apertures a) = Ret ap ->
  Forall (good_pixel (hmap ap)) (innerpix ap)
  /\ Forall (good_pixel (hmap ap)) (outerpix1 ap)
  /\ Forall (good_pixel (hmap ap)) (outerpix2 ap)
  /\ bgpix ap = np_delete (outerpix2 ap) (outerpix1 ap)
  /\ ninnerpix ap = length (innerpix ap)
  /\ nbgpix ap = length (bgpix ap).
Proof.
  unfold haperflux_apertures. intros Hrun.
  repeat (rewrite outcome_bind in Hrun;
          match type of Hrun with
          | match outcome ?m with _ => _ end = _ =>
              let E := fresh "Hstep" in
              destruct (outcome m) eqn:E; [| discriminate]
          end).
  injection Hrun as <-.
  cbn [hmap innerpix outerpix1 outerpix2 bgpix ninnerpix nbgpix].
  repeat split; eapply remove_unseen_good; eassumption.
Qed.

(** X19, lines 322-353: the pixels [haperflux] keeps in the aperture, in
    the two outer discs and in the annulus are all pixels of the map whose
    value is not [hp.UNSEEN], and [ninnerpix] counts the aperture. *)
Theorem haperflux_apertures_good_pixels (a : haperflux_args)
    (ap : apertures) :
  outcome (haperflux_apertures a) = Ret ap ->
  Forall (good_pixel (hmap ap)) (innerpix ap)
  /\ Forall (good_pixel (hmap ap)) (outerpix1 ap)
  /\ Forall (good_pixel (hmap ap)) (outerpix2 ap)
  /\ Forall (good_pixel (hmap ap)) (bgpix ap)
  /\ ninnerpix ap = length (innerpix ap).
Proof.
  intros Hrun.
  destruct (haperflux_apertures_facts a ap Hrun)
    as (Hin & Ho1 & Ho2 & Hbg & Hn & _).
  repeat split; try assumption.
  rewrite Hbg. apply np_delete_from_Forall, Ho2.
Qed.

(** X20, lines 349-353: the annulus holds at most as many pixels as the
    masked outer disc 2, and at least as many as that disc holds more than
    the masked outer disc 1. *)
Theorem haperflux_annulus_size (a : haperflux_args) (ap : apertures) :
  outcome (haperflux_apertures a) = Ret ap ->
  nbgpix ap <= length (outerpix2 ap)
  /\ length (outerpix2 ap) <= nbgpix ap + length (outerpix1 ap).
Proof.
  intros Hrun.
  destruct (haperflux_apertures_facts a ap Hrun)
    as (_ & _ & _ & Hbg & _ & Hn).
  rewrite Hn, Hbg. split.
  - apply np_delete_from_length_le.
  - apply np_delete_length_ge.
Qed.

(** X21, lines 357-389 after lines 260-353: given a conversion factor
    and a noise model other than 0 and 1, the reads of the map at the
    aperture and at the annulus are in range, the flux is the sum of the
    converted aperture values less the converted median of the annulus
    times [ninnerpix], that product is the background returned, and the
    error returned is the [fd_err] argument (0 by default): no error is
    estimated and nothing is printed about it. *)
Theorem haperflux_flux_other_noise_model (a : haperflux_args)
    (ap : apertures) (factor : float) :
  outcome (haperflux_apertures a) = Ret ap ->
  noise_model a <> 0%Z -> noise_model a <> 1%Z ->
  exists inner_vals bg_vals,
    outcome (np_take (hmap ap) (innerpix ap)) = Ret inner_vals
    /\ outcome (np_take (hmap ap) (bgpix ap)) = Ret bg_vals
    /\ outcome (haperflux_flux a ap factor)
       = Ret ((np_sum (map (fun v => v * factor) inner_vals)
               - np_median bg_vals * factor * float_of_nat (ninnerpix ap),
               fd_err a,
               np_median bg_vals * factor * float_of_nat (ninnerpix ap))%float).
Proof.
  intros Hrun Hnot0 Hnot1.
  destruct (haperflux_apertures_facts a ap Hrun)
    as (Hin & _ & Ho2 & Hbg & _ & _).
  assert (Hgoodbg : Forall (good_pixel (hmap ap)) (bgpix ap))
    by (rewrite Hbg; apply np_delete_from_Forall, Ho2).
  destruct (np_take_in_range (hmap ap) (innerpix ap)
              (good_pixels_in_range _ _ Hin)) as [inner_vals Hinner].
  destruct (np_take_in_range (hmap ap) (bgpix ap)
              (good_pixels_in_range _ _ Hgoodbg)) as [bg_vals Hbgvals].
  exists inner_vals, bg_vals. split; [exact Hinner |].
  split; [exact Hbgvals |].
  unfold haperflux_flux. rewrite outcome_bind, Hinner, outcome_bind, Hbgvals.
  apply Z.eqb_neq in Hnot0, Hnot1. rewrite Hnot0, Hnot1.
  rewrite !bind_ret_l. reflexivity.
Qed.

(** X22, lines 381-383: with no pixel in the annulus, noise model 1
    divides by [nbgpix] = 0 and raises [ZeroDivisionError], once the
    square of [ninnerpix] is computed. *)
Theorem noise_model_1_empty_annulus (ap : apertures) (factor sq : float) :
  nbgpix ap = 0 ->
  outcome (py_pow (float_of_nat (ninnerpix ap)) 2) = Ret sq ->
  outcome (noise_model_1 ap factor) = Raise ZeroDivisionError.
Proof.
  intros Hempty Hsq. unfold noise_model_1.
  rewrite outcome_bind, Hsq, outcome_bind, Hempty. reflexivity.
Qed.

End ApertureInvariants.

(** The discs of the map of ones. *)
Lemma haperflux_apertures_good_pixels_witness :
  exists ap,
    outcome (@haperflux_apertures Demo.plain (Demo.measure_args Demo.flat_map))
      = Ret ap
    /\ Forall (good_pixel (hmap ap)) (innerpix ap)
    /\ Forall (good_pixel (hmap ap)) (outerpix1 ap)
    /\ Forall (good_pixel (hmap ap)) (outerpix2 ap)
    /\ Forall (good_pixel (hmap ap)) (bgpix ap)
    /\ ninnerpix ap = length (innerpix ap).
Proof.
  eexists. split; [vm_compute; reflexivity |].
  apply (@haperflux_apertures_good_pixels Demo.plain
           (Demo.measure_args Demo.flat_map)).
  vm_compute. reflexivity.
Defined.

(** The annulus of the map of ones: 4 pixels, between 7 - 3 and 7. *)
Lemma haperflux_annulus_size_witness :
  exists ap,
    outcome (@haperflux_apertures Demo.plain (Demo.measure_args Demo.flat_map))
      = Ret ap
    /\ nbgpix ap <= length (outerpix2 ap)
    /\ length (outerpix2 ap) <= nbgpix ap + length (outerpix1 ap).
Proof.
  eexists. split; [vm_compute; reflexivity |].
  apply (@haperflux_annulus_size Demo.plain
           (Demo.measure_args Demo.flat_map)).
  vm_compute. reflexivity.
Defined.

(** The map of ones under noise model 2 and a factor of 1: a flux of
    1 - 1 * 1 * 1 = 0, an error of 0 and a background of 1. *)
Lemma haperflux_flux_other_noise_model_witness :
  exists ap,
    outcome (@haperflux_apertures Demo.plain
               (Fixtures.measure_args_2 Demo.flat_map)) = Ret ap
    /\ outcome (@haperflux_flux Demo.plain
                  (Fixtures.measure_args_2 Demo.flat_map) ap 1%float)
       = Ret (0%float, 0%float, 1%float).
Proof.
  eexists. split; [vm_compute; reflexivity |].
  destruct (@haperflux_flux_other_noise_model Demo.plain
              (Fixtures.measure_args_2 Demo.flat_map) _ 1%float
              ltac:(vm_compute; reflexivity))
    as (inner_vals & bg_vals & Hinner & Hbgvals & Hflux).
  - discriminate.
  - discriminate.
  - vm_compute. reflexivity.
Defined.

(** One good pixel in the aperture and none in the annulus. *)
Lemma noise_model_1_empty_annulus_witness :
  outcome (@noise_model_1 Demo.plain Fixtures.bare_aperture 1%float)
  = Raise ZeroDivisionError.
Proof.
  apply (@noise_model_1_empty_annulus Demo.plain Fixtures.bare_aperture
           1%float 1%float).
  - reflexivity.
  - vm_compute. reflexivity.
Defined.

Section MoreEdges.
Context `{Host}.

(** X23, lines 278-284: an input of [np.size] 1, a file name or an array
    of a single sample alike, is handed to [hp.read_map]; when the reader
    raises, [haperflux] has printed its two notices and raises the same
    exception. *)
Theorem haperflux_size_one_is_read (a : haperflux_args) (r : float)
    (e : exn) :
  length sys_argv <= 8 ->
  aper_inner_radius a = Some r ->
  np_size (inmap a) = 1 ->
  outcome (hp_read_map (inmap a) (nested a)) = Raise e ->
  haperflux a =
  ("Filename given as input..."
     :: "Reading HEALPix fits file into a numpy array"
     :: output (hp_read_map (inmap a) (nested a)),
   Raise e).
Proof.
  intros Hargv Hr Hsize Hread. rewrite haperflux_past_usage by exact Hargv.
  unfold haperflux_apertures. rewrite Hr, Hsize. cbn [py_float Nat.eqb].
  rewrite bind_ret_l. unfold outcome, output in *.
  destruct (hp_read_map (inmap a) (nested a)) as [out res].
  cbn [snd] in Hread. subst res. reflexivity.
Qed.

(** X24, lines 198-243: with a catalogue without a target and a list of
    no map or of several maps, every map of the list still has its header
    read; when all of them are accepted the three tables are returned
    without a row. *)
Theorem healpix_phot_no_targets
    (measure : haperflux_args -> M (float * float * float))
    (inputlist maplist : string) (radius : option float)
    (rinner router apcor : float) (fn : list string) :
  outcome (aperture_correction radius rinner router) = Ret apcor ->
  outcome (genfromtxt_targets inputlist) = Ret [] ->
  outcome (genfromtxt_str maplist) = Ret fn ->
  length fn <> 1 ->
  (forall path, path ∈ fn -> returns (read_header path) = true) ->
  outcome (healpix_phot_with measure inputlist maplist radius rinner router
             true)
  = Ret (zero_tables 0 (length fn)).
Proof.
  intros Hapcor Htargets Hfn Hlen2 Hheaders.
  assert (Hlen : length (@nil target) <> 1) by discriminate.
  destruct (healpix_phot_with_cells measure inputlist maplist radius rinner
              router apcor [] fn Hapcor Htargets Hlen Hfn Hlen2)
    as (t & Hout & (Hfd & Herr & Hbg) & _).
  - intros path Hpath. specialize (Hheaders path Hpath).
    unfold returns in Hheaders.
    destruct (outcome (read_header path)) as [m |]; [| discriminate].
    exists m. split; [reflexivity |]. intros tg Htg. inversion Htg.
  - rewrite Hout. f_equal. destruct t as [fd err bg].
    cbn [fd_all fd_err_all fd_bg_all length] in *.
    destruct Hfd as [Hfd _], Herr as [Herr _], Hbg as [Hbg _].
    destruct fd; [| discriminate]. destruct err; [| discriminate].
    destruct bg; [| discriminate]. reflexivity.
Qed.

End MoreEdges.

(** An array of one sample: the reader of the examples knows no file. *)
Lemma haperflux_size_one_is_read_witness :
  @haperflux Demo.plain (Demo.measure_args [1%float])
  = (["Filename given as input...";
      "Reading HEALPix fits file into a numpy array"],
     Raise (IOError "read_map")).
Proof.
  apply (@haperflux_size_one_is_read Demo.plain (Demo.measure_args [1%float])
           600%float (IOError "read_map")).
  - simpl. lia.
  - reflexivity.
  - reflexivity.
  - reflexivity.
Defined.

(** The two maps of the examples and a catalogue without a target. *)
Lemma healpix_phot_no_targets_witness :
  outcome (@healpix_phot_with Fixtures.no_targets
             (@haperflux Fixtures.no_targets)
             "targets.csv" "maps.txt" (Some 600%float) 1800%float 2700%float
             true)
  = Ret (zero_tables 0 2).
Proof.
  apply (@healpix_phot_no_targets Fixtures.no_targets
           (@haperflux Fixtures.no_targets)
           "targets.csv" "maps.txt" (Some 600%float) 1800%float 2700%float
           1.0666666666832234%float ["hole.fits"; "flat.fits"]).
  - vm_compute. reflexivity.
  - reflexivity.
  - reflexivity.
  - discriminate.
  - intros path Hpath.
    apply elem_of_cons in Hpath as [-> | Hpath];
      [| apply elem_of_cons in Hpath as [-> | Hpath]; [| inversion Hpath]];
      vm_compute; reflexivity.
Defined.
